(** * PyChemia: the DFTB+ relaxation controller ([pychemia/code/dftb/_relaxator.py])

    A shallow embedding of the class [Relaxator]: its constructor, the
    controller loop [run], the scorer [quality] and [get_final_geometry].

    - Python floats are IEEE binary64 numbers: they are Rocq's primitive
      floats, compared with [PrimFloat.ltb] and multiplied with
      [PrimFloat.mul].
    - Python integers are unbounded: [Z].
    - Dictionaries with string keys ([dftb.driver], [dftb.hamiltonian],
      [dftb.options], and the two dictionaries returned by
      [read_dftb_stdout]) are [gmap string _]; reading a missing key raises
      [KeyError], [l[-1]] and [l[0]] on an empty list raise [IndexError].
    - [np.max(a, x)] with a float [x] where numpy expects an axis raises
      [ValueError] or [TypeError], depending on [x] and on the release of
      numpy.
    - The controller is sequential code that mutates [self] and [dftb],
      writes to the log and talks to the file system and to a subprocess.
      It is written in a state-and-exception monad over [state]; what the
      outside world answers in one turn of the [while True] loop is an
      [Obs] value, and the loop is run over a list of them. *)

From Stdlib Require Import ZArith Floats Ascii String.
From stdpp Require Import gmap strings list.

Open Scope Z_scope.

(* Decimal literals such as 0.9 are rounded to the nearest binary64 value,
   as Python does. *)
Set Warnings "-inexact-float".

(** ** Python values and exceptions *)

Inductive exn :=
| KeyError (key : string)
| IndexError
| ValueError
| TypeError.

Inductive result (A : Type) :=
| Ok (a : A)
| Err (e : exn).
Arguments Ok {A} a.
Arguments Err {A} e.

(** Values stored in the option dictionaries of the engine adapter. *)
Inductive PyVal :=
| PBool (b : bool)
| PInt (z : Z)
| PFloat (x : float)
| PStr (s : string).

(** [a < b] and [a > b] on floats. *)
Definition flt (a b : float) : bool := PrimFloat.ltb a b.
Definition fgt (a b : float) : bool := PrimFloat.ltb b a.

(** [d[k]] *)
Definition getitem {A} (d : gmap string A) (k : string) : result A :=
  match d !! k with
  | Some v => Ok v
  | None => Err (KeyError k)
  end.

(** [l[-1]] *)
Definition last_item {A} (l : list A) : result A :=
  match last l with
  | Some x => Ok x
  | None => Err IndexError
  end.

(** [l[0]] *)
Definition first_item {A} (l : list A) : result A :=
  match l with
  | x :: _ => Ok x
  | [] => Err IndexError
  end.

(** [os.sep] on the POSIX systems the package runs on. *)
Definition os_sep : string := "/".

(** [os.path.basename]: what follows the last separator. *)
Fixpoint basename_from (acc : string) (p : string) : string :=
  match p with
  | EmptyString => acc
  | String c rest =>
      if Ascii.eqb c "/"%char then basename_from rest rest
      else basename_from acc rest
  end.
Definition basename (p : string) : string := basename_from p p.

(** ** The k-point mesh ([pychemia/dft/_kpoints.py]), as far as [run] builds it *)

Record KPoints := {
  kmode : string;
  grid : list Z
}.

(** ** Log and effects *)

Inductive level := Info | Debug | Error.

(** ** What the controller takes from elsewhere

    Atomic structures and numpy arrays are opaque to the controller.  It
    uses [pychemia.symm.symmetrize] (or the identity when that import
    fails), [structure.copy()] and [np.max(np.abs(t.flatten()))].

    Lines 67 and 75 call [np.max(np.abs(t.flatten()), x)] with the float
    [x = 10 * self.target_forces] as second positional argument, which is
    the [axis] of [np.max].  What comes of that is numpy's business and
    differs between releases: up to numpy 1.11 the float is truncated to an
    integer with a warning, and the call raises [ValueError] unless that
    integer is an axis of the flattened array (0 or -1); from numpy 1.12 on
    the call raises [TypeError] for every float.  [max_abs_axis t x] is the
    value or the exception of that call. *)
Class External := {
  Structure : Type;
  Tensor : Type;
  symmetrize : Structure -> Structure;
  copy : Structure -> Structure;
  max_abs : Tensor -> float;
  max_abs_axis : Tensor -> float -> result float
}.

Section Controller.

Context `{External}.

(** What [read_dftb_stdout] returns: [(booleans, geom_optimization, stats)]. *)
Definition StdoutData : Type :=
  gmap string bool * gmap string (list float) * gmap string bool.

(** What [read_detailed_out] returns: [(forces, stress, total_energy)]. *)
Definition DetailedOut : Type :=
  option Tensor * option Tensor * option float.

(** The file system as the controller sees it at one moment. *)
Record World := {
  path_exists : string -> bool;
  path_isfile : string -> bool;
  read_detailed_out : string -> DetailedOut;
  read_dftb_stdout : string -> StdoutData;
  read_geometry_gen : string -> Structure
}.

(** The answers of the outside world during one turn of the [while True]
    loop: the exit status [dftb.runner.poll()] (no value while the process
    is alive), the files at that moment, and, for the turn that runs the
    final static calculation, how often the process was polled alive and
    the files once it had exited (the same for the short relaxation that
    follows an incomplete static result). *)
Record Obs := {
  poll : option Z;
  now : World;
  static_polls : nat;
  after_static : World;
  fallback_polls : nat;
  after_fallback : World
}.

(** Calls whose effect is outside the Python process, in program order. *)
Inductive event :=
| ELog (lv : level) (text : string) (args : list PyVal)
| EPrintDriver (driver : gmap string PyVal)
| EPrintFinal (res : DetailedOut)
| ESetInputs (s : Structure) (driver hamiltonian options : gmap string PyVal)
| ERun
| EWait
| ERunStatus
| EGetGeometry
| ERollOutputs (irun : Z)
| ESleep (seconds : Z).

(** ** The objects *)

Record Relaxator := {
  workdir : string;
  initial_structure : Structure;
  structure : Structure;
  slater_path : string;
  target_forces : float;
  waiting : bool
}.

(** Modelled from the spec: the adapter class [DFTBplus] of [_dftb.py] is
    not among the sources.  It holds the workspace, the structure, the
    k-point mesh, the Slater-Koster search path and the three option
    dictionaries; [runner] tells whether a subprocess has been started.
    [set_inputs], [run], [runner.wait], [run_status], [get_geometry] and
    [roll_outputs] act on files and on the subprocess: they are recorded as
    events and leave the fields alone, as the adapter contract describes
    them (submit, wait, archive). *)
Record DFTBplus := {
  dftb_workdir : string;
  dftb_structure : Structure;
  dftb_kpoints : KPoints;
  dftb_slater : string;
  driver : gmap string PyVal;
  hamiltonian : gmap string PyVal;
  options : gmap string PyVal;
  runner : bool
}.

(** [dftb.basic_input()] fills the three option dictionaries with the
    adapter's defaults for the job at hand; which defaults is left open. *)
Class Adapter := {
  basic_options :
    DFTBplus -> gmap string PyVal * gmap string PyVal * gmap string PyVal
}.

Context `{!Adapter}.

Definition basic_input (d : DFTBplus) : DFTBplus :=
  let '(dr, ha, op) := basic_options d in
  {| dftb_workdir := dftb_workdir d; dftb_structure := dftb_structure d;
     dftb_kpoints := dftb_kpoints d; dftb_slater := dftb_slater d;
     driver := dr; hamiltonian := ha; options := op; runner := runner d |}.

Record state := {
  self : Relaxator;
  dftb : DFTBplus;
  trace : list event
}.

(** ** The monad: state and exceptions *)

Inductive outcome (A : Type) :=
| Done (a : A) (st : state)
| Raised (e : exn) (st : state).
Arguments Done {A} a st.
Arguments Raised {A} e st.

Definition M (A : Type) : Type := state -> outcome A.

Definition ret {A} (a : A) : M A := fun st => Done a st.

Definition bind {A B} (c : M A) (k : A -> M B) : M B :=
  fun st =>
    match c st with
    | Done a st' => k a st'
    | Raised e st' => Raised e st'
    end.

Definition lift {A} (r : result A) : M A :=
  fun st =>
    match r with
    | Ok a => Done a st
    | Err e => Raised e st
    end.

Definition get_self : M Relaxator := fun st => Done (self st) st.
Definition get_dftb : M DFTBplus := fun st => Done (dftb st) st.

(** The three ways a state changes: a new [self], a new [dftb], one more
    event. *)
Definition on_self (f : Relaxator -> Relaxator) (st : state) : state :=
  {| self := f (self st); dftb := dftb st; trace := trace st |}.
Definition on_dftb (f : DFTBplus -> DFTBplus) (st : state) : state :=
  {| self := self st; dftb := f (dftb st); trace := trace st |}.
Definition logged (e : event) (st : state) : state :=
  {| self := self st; dftb := dftb st; trace := trace st ++ [e] |}.

Definition set_self (f : Relaxator -> Relaxator) : M unit :=
  fun st => Done tt (on_self f st).
Definition set_dftb (f : DFTBplus -> DFTBplus) : M unit :=
  fun st => Done tt (on_dftb f st).
Definition emit (e : event) : M unit :=
  fun st => Done tt (logged e st).

Definition when (b : bool) (c : M unit) : M unit := if b then c else ret tt.

Fixpoint times (n : nat) (c : M unit) : M unit :=
  match n with
  | O => ret tt
  | S n' => bind c (fun _ => times n' c)
  end.

Notation "'let*' x ':=' c 'in' k" := (bind c (fun x => k))
  (at level 10, x name, c at level 100, k at level 200, only parsing).
Notation "c >> k" := (bind c (fun _ => k))
  (at level 100, right associativity, only parsing).

(** ** The adapter's fields and calls *)

Definition with_driver (f : gmap string PyVal -> gmap string PyVal)
    (d : DFTBplus) : DFTBplus :=
  {| dftb_workdir := dftb_workdir d; dftb_structure := dftb_structure d;
     dftb_kpoints := dftb_kpoints d; dftb_slater := dftb_slater d;
     driver := f (driver d); hamiltonian := hamiltonian d;
     options := options d; runner := runner d |}.

Definition with_hamiltonian (f : gmap string PyVal -> gmap string PyVal)
    (d : DFTBplus) : DFTBplus :=
  {| dftb_workdir := dftb_workdir d; dftb_structure := dftb_structure d;
     dftb_kpoints := dftb_kpoints d; dftb_slater := dftb_slater d;
     driver := driver d; hamiltonian := f (hamiltonian d);
     options := options d; runner := runner d |}.

Definition with_options (f : gmap string PyVal -> gmap string PyVal)
    (d : DFTBplus) : DFTBplus :=
  {| dftb_workdir := dftb_workdir d; dftb_structure := dftb_structure d;
     dftb_kpoints := dftb_kpoints d; dftb_slater := dftb_slater d;
     driver := driver d; hamiltonian := hamiltonian d;
     options := f (options d); runner := runner d |}.

Definition with_structure (s : Structure) (d : DFTBplus) : DFTBplus :=
  {| dftb_workdir := dftb_workdir d; dftb_structure := s;
     dftb_kpoints := dftb_kpoints d; dftb_slater := dftb_slater d;
     driver := driver d; hamiltonian := hamiltonian d;
     options := options d; runner := runner d |}.

Definition with_slater (p : string) (d : DFTBplus) : DFTBplus :=
  {| dftb_workdir := dftb_workdir d; dftb_structure := dftb_structure d;
     dftb_kpoints := dftb_kpoints d; dftb_slater := p;
     driver := driver d; hamiltonian := hamiltonian d;
     options := options d; runner := runner d |}.

Definition with_runner (b : bool) (d : DFTBplus) : DFTBplus :=
  {| dftb_workdir := dftb_workdir d; dftb_structure := dftb_structure d;
     dftb_kpoints := dftb_kpoints d; dftb_slater := dftb_slater d;
     driver := driver d; hamiltonian := hamiltonian d;
     options := options d; runner := b |}.

(** [dftb = DFTBplus(); dftb.initialize(workdir, structure, kpoints)] *)
Definition initialize (w : string) (s : Structure) (k : KPoints) : DFTBplus :=
  {| dftb_workdir := w; dftb_structure := s; dftb_kpoints := k;
     dftb_slater := ""; driver := ∅; hamiltonian := ∅; options := ∅;
     runner := false |}.

(** [dftb.driver[k] = v], [dftb.hamiltonian[k] = v], [dftb.options[k] = v] *)
Definition driver_set (k : string) (v : PyVal) : M unit :=
  set_dftb (with_driver (insert k v)).
Definition hamiltonian_set (k : string) (v : PyVal) : M unit :=
  set_dftb (with_hamiltonian (insert k v)).
Definition options_set (k : string) (v : PyVal) : M unit :=
  set_dftb (with_options (insert k v)).

Definition log (lv : level) (text : string) (args : list PyVal) : M unit :=
  emit (ELog lv text args).

Definition dftb_set_inputs : M unit :=
  let* d := get_dftb in
  emit (ESetInputs (dftb_structure d) (driver d) (hamiltonian d) (options d)).

Definition dftb_run : M unit := emit ERun >> set_dftb (with_runner true).
Definition runner_wait : M unit := emit EWait.
Definition dftb_run_status : M unit := emit ERunStatus.
Definition dftb_get_geometry : M unit := emit EGetGeometry.
Definition dftb_roll_outputs (irun : Z) : M unit := emit (ERollOutputs irun).
Definition time_sleep (seconds : Z) : M unit := emit (ESleep seconds).

(** ** [Relaxator.__init__] *)

Definition default_target_forces : float := 0.001%float.

Definition Relaxator_init (workdir0 : string) (structure0 : Structure)
    (slater_path0 : string) (target_forces0 : float) (waiting0 : bool)
    : Relaxator :=
  let initial := symmetrize structure0 in
  {| workdir := workdir0;
     initial_structure := initial;
     structure := copy initial;
     slater_path := slater_path0;
     target_forces := target_forces0;
     waiting := waiting0 |}.

Definition with_current (s : Structure) (r : Relaxator) : Relaxator :=
  {| workdir := workdir r; initial_structure := initial_structure r;
     structure := s; slater_path := slater_path r;
     target_forces := target_forces r; waiting := waiting r |}.

(** ** [Relaxator.get_final_geometry] *)

Definition get_final_geometry (w : World) : M Structure :=
  let* s := get_self in
  let geometry := workdir s +:+ os_sep +:+ "geo_end.gen" in
  if path_isfile w geometry then ret (read_geometry_gen w geometry)
  else ret (structure s).

(** ** [Relaxator.quality] *)

Definition quality (w : World) (score : Z) : M Z :=
  let* d := get_dftb in
  let* s := get_self in
  let '(booleans, geom_optimization, stats) :=
    read_dftb_stdout w (dftb_workdir d +:+ os_sep +:+ "dftb_stdout.log") in
  let score := score + 1 in
  let* ion := lift (getitem stats "ion_convergence") in
  let score := if ion then score + 0 else score in
  match geom_optimization !! "max_force" with
  | None => ret score
  | Some forces_history =>
      let* max_force := lift (last_item forces_history) in
      let* max_lattice_force :=
        match geom_optimization !! "max_lattice_force" with
        | Some lattice_history =>
            let* x := lift (last_item lattice_history) in ret (Some x)
        | None => ret None
        end in
      let* score :=
        if match max_lattice_force with
           | Some mlf =>
               flt max_force (target_forces s) && flt mlf (target_forces s)
           | None => false
           end
        then log Debug "Target forces and stress achieved (score +100)" [] >>
             ret (score + 100)
        else ret score in
      let* f_last := lift (last_item forces_history) in
      let score := if fgt f_last (target_forces s) then score + 0 else score in
      let* f_last := lift (last_item forces_history) in
      let* f_first := lift (first_item forces_history) in
      let score := if flt f_last f_first then score + 0 else score in
      match geom_optimization !! "max_lattice_force" with
      | Some lattice_history =>
          let* l_last := lift (last_item lattice_history) in
          let score :=
            if fgt l_last (target_forces s) then score + 0 else score in
          let* l_last := lift (last_item lattice_history) in
          let* l_first := lift (first_item lattice_history) in
          let score := if flt l_last l_first then score + 0 else score in
          ret score
      | None => ret score
      end
  end.

(** ** [Relaxator.run] *)

(** What one turn of the [while True] loop does to the loop itself: go on
    with the local variables [irun] and [score], or [break]. *)
Inductive flow :=
| Next (irun score : Z)
| Break.

(** Lines 29-46: the first run. *)
Definition first_run : M unit :=
  let* s := get_self in
  let kpoints := {| kmode := "gamma"; grid := [7; 7; 7] |} in
  set_dftb (fun _ => initialize (workdir s) (structure s) kpoints) >>
  set_dftb (with_slater (slater_path s)) >>
  set_dftb basic_input >>
  driver_set "LatticeOpt" (PBool false) >>
  driver_set "MaxForceComponent"
    (PFloat (PrimFloat.mul 0.9%float (target_forces s))) >>
  driver_set "ConvergentForcesOnly" (PBool true) >>
  driver_set "MaxSteps" (PInt 50) >>
  hamiltonian_set "MaxSCCIterations" (PInt 50) >>
  dftb_set_inputs >>
  dftb_run >>
  when (waiting s) runner_wait.

(** Lines 56-60. *)
Definition set_convergent_forces_only (forces stress : option Tensor) : M unit :=
  match forces, stress with
  | Some _, Some _ => driver_set "ConvergentForcesOnly" (PBool true)
  | _, _ => driver_set "ConvergentForcesOnly" (PBool false)
  end.

(** Lines 63 and 71: a tensor is good when it is there and its largest
    absolute component is below ten times the target. *)
Definition is_good (target : float) (tensor : option Tensor) : bool :=
  match tensor with
  | Some t => flt (max_abs t) (PrimFloat.mul 10%float target)
  | None => false
  end.

(** Lines 62-76.  For a tensor that is there and not good, the message of
    lines 67 and 75 is built from [np.max] called with ten times the target
    as its axis: if that call raises, the exception ends [run]; otherwise
    its value is logged.  Logging does not touch [self] or [dftb]. *)
Definition classify (label : string) (tensor : option Tensor) : M bool :=
  let* s := get_self in
  if is_good (target_forces s) tensor then ret true
  else
    match tensor with
    | Some t =>
        let* m := lift (max_abs_axis t (PrimFloat.mul 10%float (target_forces s))) in
        log Info label [PFloat m]
    | None => ret tt
    end >>
    ret false.

(** Lines 66-67 and 74-75 return: the tensor is absent or good, so that the
    line is not reached, or [np.max] takes the float for an axis. *)
Definition reported (target : float) (tensor : option Tensor) : bool :=
  match tensor with
  | Some t =>
      is_good target tensor ||
      match max_abs_axis t (PrimFloat.mul 10%float target) with
      | Ok _ => true
      | Err _ => false
      end
  | None => true
  end.

(** Lines 82-93. *)
Definition decide_relaxation (good_forces good_stress : bool) : M unit :=
  if good_forces && good_stress then
    log Debug "Convergence: Internals + Cell" [] >>
    driver_set "MovedAtoms" (PStr "1:-1") >>
    driver_set "LatticeOpt" (PBool true)
  else if negb good_forces && good_stress then
    log Debug "Convergence: Internals" [] >>
    driver_set "LatticeOpt" (PBool false) >>
    driver_set "MovedAtoms" (PStr "1:-1")
  else if good_forces && negb good_stress then
    log Debug "Convergence: Internals + Cell" [] >>
    driver_set "LatticeOpt" (PBool true) >>
    driver_set "MovedAtoms" (PStr "1:-1")
  else ret tt.

(** Lines 95-105. *)
Definition resubmit (w : World) (irun score : Z) : M flow :=
  let* d := get_dftb in
  set_dftb (with_structure
              (read_geometry_gen w (dftb_workdir d +:+ os_sep +:+ "geo_end.gen"))) >>
  set_dftb (fun d => with_structure (symmetrize (dftb_structure d)) d) >>
  let* d := get_dftb in
  set_self (with_current (dftb_structure d)) >>
  dftb_get_geometry >>
  dftb_roll_outputs irun >>
  dftb_set_inputs >>
  let irun := irun + 1 in
  dftb_run >>
  let* s := get_self in
  when (waiting s) runner_wait >>
  ret (Next irun score).

(** Lines 125-142: the short relaxation after an incomplete static run. *)
Definition fallback (o : Obs) (filename : string) : M unit :=
  log Debug "Avoiding a static run relaxing and exiting" [] >>
  set_dftb basic_input >>
  driver_set "LatticeOpt" (PBool false) >>
  let* s := get_self in
  driver_set "MaxForceComponent"
    (PFloat (PrimFloat.mul 0.9%float (target_forces s))) >>
  driver_set "ConvergentForcesOnly" (PBool false) >>
  driver_set "MaxSteps" (PInt 10) >>
  hamiltonian_set "MaxSCCIterations" (PInt 50) >>
  let* d := get_dftb in
  emit (EPrintDriver (driver d)) >>
  dftb_set_inputs >>
  dftb_run >>
  when (waiting s) runner_wait >>
  times (fallback_polls o) (time_sleep 10) >>
  emit (EPrintFinal (read_detailed_out (after_fallback o) filename)).

(** Lines 107-143. *)
Definition final_static (o : Obs) (irun : Z) : M flow :=
  log Debug "Final static calculation" [] >>
  let* g := get_final_geometry (now o) in
  set_dftb (with_structure g) >>
  set_dftb (fun d => with_structure (symmetrize (dftb_structure d)) d) >>
  let* d := get_dftb in
  set_self (with_current (dftb_structure d)) >>
  dftb_get_geometry >>
  dftb_roll_outputs irun >>
  options_set "CalculateForces" (PBool true) >>
  set_dftb (with_driver (fun _ => ∅)) >>
  dftb_set_inputs >>
  dftb_run >>
  let* s := get_self in
  when (waiting s) runner_wait >>
  times (static_polls o) (dftb_run_status >> time_sleep 10) >>
  log Debug "I am alive!!!" [] >>
  let* d := get_dftb in
  let filename := dftb_workdir d +:+ os_sep +:+ "detailed.out" in
  let '(forces, stress, total_energy) :=
    read_detailed_out (after_static o) filename in
  match stress, forces, total_energy with
  | Some _, Some _, Some _ => ret Break
  | _, _, _ => fallback o filename >> ret Break
  end.

(** Lines 145-149: the process is still alive. *)
Definition still_running (o : Obs) (irun score : Z) : M flow :=
  let* s := get_self in
  log Debug "ID: %s" [PStr (basename (workdir s))] >>
  let* d := get_dftb in
  let filename := dftb_workdir d +:+ os_sep +:+ "dftb_stdout.log" in
  (if path_exists (now o) filename
   then let _ := read_dftb_stdout (now o) filename in ret tt
   else ret tt) >>
  time_sleep 10 >>
  ret (Next irun score).

(** Lines 54-143: the process has exited and [detailed.out] is there. *)
Definition evaluate (o : Obs) (filename : string) (irun score : Z) : M flow :=
  let '(forces, stress, total_energy) := read_detailed_out (now o) filename in
  set_convergent_forces_only forces stress >>
  let* good_forces := classify "Forces: " forces in
  let* good_stress := classify "Stress: " stress in
  let* score := quality (now o) score in
  log Debug "Present score : " [PInt score] >>
  if score <? 20 then
    decide_relaxation good_forces good_stress >>
    resubmit (now o) irun score
  else final_static o irun.

(** Lines 48-149: one turn of the [while True] loop. *)
Definition loop_body (o : Obs) (irun score : Z) : M flow :=
  let* d := get_dftb in
  match (if runner d then poll o else None) with
  | Some returncode =>
      log Info "Execution completed. Return code %d" [PInt returncode] >>
      let filename := dftb_workdir d +:+ os_sep +:+ "detailed.out" in
      if negb (path_exists (now o) filename) then
        log Error ("Could not find " +:+ filename) [] >> ret Break
      else evaluate o filename irun score
  | None => still_running o irun score
  end.

(** How [run] ends on a finite list of observations: the loop was left by
    [break], an exception went up, or the observations are used up while
    the controller is still polling. *)
Inductive run_result :=
| Finished (st : state)
| Failed (e : exn) (st : state)
| Polling (irun score : Z) (st : state).

Fixpoint loop (obs : list Obs) (irun score : Z) (st : state) : run_result :=
  match obs with
  | [] => Polling irun score st
  | o :: rest =>
      match loop_body o irun score st with
      | Done (Next irun' score') st' => loop rest irun' score' st'
      | Done Break st' => Finished st'
      | Raised e st' => Failed e st'
      end
  end.

Definition run (r : Relaxator) (obs : list Obs) : run_result :=
  let kpoints := {| kmode := "gamma"; grid := [7; 7; 7] |} in
  let st0 := {| self := r;
                dftb := initialize (workdir r) (structure r) kpoints;
                trace := [] |} in
  match first_run st0 with
  | Done _ st => loop obs 0 0 st
  | Raised e st => Failed e st
  end.

Definition final_state (r : run_result) : state :=
  match r with
  | Finished st => st
  | Failed _ st => st
  | Polling _ _ st => st
  end.

(** The score after a series of evaluated runs: line 78,
    [score = self.quality(dftb, score)], once per run. *)
Fixpoint score_after (ws : list World) (score : Z) : M Z :=
  match ws with
  | [] => ret score
  | w :: rest => let* score := quality w score in score_after rest score
  end.

(** ** Reading the model *)

(** The files the controller reads, for the adapter of a given state. *)
Definition stdout_log (st : state) : string :=
  dftb_workdir (dftb st) +:+ os_sep +:+ "dftb_stdout.log".
Definition detailed_out (st : state) : string :=
  dftb_workdir (dftb st) +:+ os_sep +:+ "detailed.out".
Definition geo_end (st : state) : string :=
  dftb_workdir (dftb st) +:+ os_sep +:+ "geo_end.gen".

(** The two dictionaries of the progress log that [quality] looks at. *)
Definition geom_optimization (w : World) (st : state) : gmap string (list float) :=
  snd (fst (read_dftb_stdout w (stdout_log st))).
Definition stats (w : World) (st : state) : gmap string bool :=
  snd (read_dftb_stdout w (stdout_log st)).

(** The message of the +100 bonus. *)
Definition bonus_message : event :=
  ELog Debug "Target forces and stress achieved (score +100)" [].

(** A progress log the scorer can read without an exception: the flag
    [ion_convergence] is there, and a history that is there has a value. *)
Definition readable_log (w : World) (st : state) : Prop :=
  is_Some (stats w st !! "ion_convergence") /\
  (forall l, geom_optimization w st !! "max_force" = Some l -> l <> []) /\
  (forall l, geom_optimization w st !! "max_lattice_force" = Some l -> l <> []).

(** The message that opens the final static calculation (line 107). *)
Definition final_static_message : event :=
  ELog Debug "Final static calculation" [].

(** The messages of the decision: lines 83 and 91, and line 87. *)
Definition cell_message : event :=
  ELog Debug "Convergence: Internals + Cell" [].
Definition internals_message : event :=
  ELog Debug "Convergence: Internals" [].

(** Both tensors of [detailed.out] are there. *)
Definition both_present (forces stress : option Tensor) : bool :=
  match forces, stress with
  | Some _, Some _ => true
  | _, _ => false
  end.

(** The state with more events. *)
Definition logged_all (ev : list event) (st : state) : state :=
  {| self := self st; dftb := dftb st; trace := trace st ++ ev |}.

(** The state a computation ends in, with a value or with an exception. *)
Definition outcome_state {A} (r : outcome A) : state :=
  match r with
  | Done _ st => st
  | Raised _ st => st
  end.

(** Two jobs that differ at most in their current structure. *)
Definition same_job (a b : Relaxator) : Prop :=
  workdir a = workdir b /\
  initial_structure a = initial_structure b /\
  slater_path a = slater_path b /\
  target_forces a = target_forces b /\
  waiting a = waiting b.

(** A computation that leaves the job alone but for its current structure,
    however it ends. *)
Definition keeps_job {A} (c : M A) : Prop :=
  forall st, same_job (self st) (self (outcome_state (c st))).

(** ** [Relaxator.get_forces_stress_energy] *)

Definition get_forces_stress_energy (w : World) : M DetailedOut :=
  let* s := get_self in
  let filename := workdir s +:+ os_sep +:+ "detailed.out" in
  if path_isfile w filename then ret (read_detailed_out w filename)
  else ret (None, None, None).

(** ** Reading the trace *)

(** The indices under which outputs were archived, in order
    ([dftb.roll_outputs(irun)]). *)
Definition archived (ev : list event) : list Z :=
  omap (fun e => match e with ERollOutputs i => Some i | _ => None end) ev.

(** The number of runs submitted ([dftb.run()]). *)
Definition submitted (ev : list event) : nat :=
  length (omap (fun e => match e with ERun => Some tt | _ => None end) ev).

(** The input files written ([dftb.set_inputs()]), in order: structure,
    driver, Hamiltonian, options. *)
Definition inputs_written (ev : list event) :
    list (Structure * gmap string PyVal * gmap string PyVal * gmap string PyVal) :=
  omap (fun e => match e with
                 | ESetInputs s d h o => Some (s, d, h, o)
                 | _ => None
                 end) ev.

(** Line 125 the other way round: forces, stress and energy are all there. *)
Definition complete (res : DetailedOut) : bool :=
  match res with
  | (Some _, Some _, Some _) => true
  | _ => false
  end.

(** The job and its adapter agree: same structure, same directory, and a
    subprocess has been started. *)
Definition in_step (st : state) : Prop :=
  dftb_structure (dftb st) = structure (self st) /\
  dftb_workdir (dftb st) = workdir (self st) /\
  runner (dftb st) = true.

(** The geometry the final static calculation starts from (line 108). *)
Definition final_geometry (w : World) (st : state) : Structure :=
  if path_isfile w (workdir (self st) +:+ os_sep +:+ "geo_end.gen")
  then read_geometry_gen w (workdir (self st) +:+ os_sep +:+ "geo_end.gen")
  else structure (self st).

End Controller.

Arguments Done {_ A} a st.
Arguments Raised {_ A} e st.


(** ** A job to run the model on

    The symmetrizer is the fallback of the module ([return structure]), a
    structure is named by a label, a tensor is the list of its components. *)

Definition np_max_abs (t : list float) : float :=
  foldr (fun x m => if PrimFloat.ltb m (PrimFloat.abs x) then PrimFloat.abs x else m)
    0%float t.

(** [np.max(a, x)] on a flat array with numpy up to 1.11: [x] is truncated
    towards zero and has to come out as 0 or -1. *)
Definition np_max_axis (t : list float) (x : float) : result float :=
  if flt (-2)%float x && flt x 1%float then Ok (np_max_abs t)
  else Err ValueError.

#[global] Instance sample_external : External := {|
  Structure := string;
  Tensor := list float;
  symmetrize := fun s => s;
  copy := fun s => s;
  max_abs := np_max_abs;
  max_abs_axis := np_max_axis
|}.

#[global] Instance sample_adapter : Adapter := {|
  basic_options := fun _ => (∅, ∅, ∅)
|}.

Definition sample_job : Relaxator :=
  Relaxator_init "/scratch/job" "Si2" "/opt/slako" default_target_forces false.

(** The state once the first run is submitted. *)
Definition sample_state : state := final_state (run sample_job []).

Definition sample_world (res : DetailedOut) (log : StdoutData) : World :=
  {| path_exists := fun _ => true;
     path_isfile := fun _ => true;
     read_detailed_out := fun _ => res;
     read_dftb_stdout := fun _ => log;
     read_geometry_gen := fun _ => "Si2-relaxed"%string |}.

Definition sample_obs (code : option Z) (w : World) : Obs :=
  {| poll := code; now := w; static_polls := 0; after_static := w;
     fallback_polls := 0; after_fallback := w |}.

(** Scenario A of the specification: the run ends with a max force and a
    max lattice force of 5e-3. *)
Definition scenario_a_log : StdoutData :=
  (∅,
   {[ "max_force" := [0.02%float; 0.005%float];
      "max_lattice_force" := [0.03%float; 0.005%float] ]},
   {[ "ion_convergence" := true ]}).

Definition scenario_a : World :=
  sample_world (Some [0.005%float], Some [0.005%float], Some (-10)%float)
    scenario_a_log.

(** A run that stops before the first geometry step: no history at all. *)
Definition empty_log : StdoutData :=
  (∅, ∅, {[ "ion_convergence" := false ]}).

(** A run that reaches the target on both histories. *)
Definition converged_log : StdoutData :=
  (∅,
   {[ "max_force" := [0.02%float; 0.0005%float];
      "max_lattice_force" := [0.03%float; 0.0002%float] ]},
   {[ "ion_convergence" := true ]}).


(** The four outcomes of a first run used below: stopped before the first
    geometry step with nothing in [detailed.out]; the same with forces but
    no stress; converged on both histories; no [detailed.out] at all. *)
Definition stopped_early : World :=
  sample_world (None, None, None) empty_log.

Definition forces_only : World :=
  sample_world (Some [0.001%float; (-0.002)%float], None, None) empty_log.

Definition converged : World :=
  sample_world (Some [0.0001%float], Some [0.0002%float], Some (-10)%float)
    converged_log.

Definition no_detailed_out : World :=
  {| path_exists := fun _ => false;
     path_isfile := fun _ => false;
     read_detailed_out := fun _ => (None, None, None);
     read_dftb_stdout := fun _ => empty_log;
     read_geometry_gen := fun _ => "Si2"%string |}.

(** Forces and stress are both there and both far from the target. *)
Definition rough : World :=
  sample_world (Some [7%float], Some [3%float], None) empty_log.

(** The same job with a target of 0.5, so that ten times the target is 5. *)
Definition loose_job : Relaxator :=
  Relaxator_init "/scratch/job" "Si2" "/opt/slako" 0.5%float false.

Definition loose_state : state := final_state (run loose_job []).

(** * The k-point mesh in full ([pychemia/dft/_kpoints.py]) *)

Module Kpt.

(** The exceptions of the module. *)
Inductive error :=
| ValueError (msg : string)
| AssertionError
| IndexError
| TypeError
| OverflowError
| KeyError (key : string)
| NameError (name : string)
| ZeroDivisionError.

(** A call that returns or raises. *)
Inductive py (A : Type) :=
| Return (a : A)
| Raise (e : error).
Arguments Return {A} a.
Arguments Raise {A} e.

Definition and_then {A B} (c : py A) (k : A -> py B) : py B :=
  match c with
  | Return a => k a
  | Raise e => Raise e
  end.

(** [s.lower()] on ASCII strings. *)
Definition lower_char (c : ascii) : ascii :=
  let n := nat_of_ascii c in
  if (65 <=? n)%nat && (n <=? 90)%nat then ascii_of_nat (n + 32) else c.

Fixpoint lower (s : string) : string :=
  match s with
  | EmptyString => EmptyString
  | String c rest => String (lower_char c) (lower rest)
  end.

Definition explicit_modes : list string := ["cartesian"; "reciprocal"].
Definition grid_modes : list string := ["gamma"; "monkhorst-pack"].
Definition all_modes : list string :=
  ["cartesian"; "reciprocal"; "gamma"; "monkhorst-pack"; "path"].

(** [s in l] *)
Definition is_in (s : string) (l : list string) : bool := bool_decide (s ∈ l).

(** What the class takes from numpy and from the Python built-ins.  [Obj]
    is a Python object other than [None] handed in by the caller, an
    [ndarray] is known by its shape, and the laws are those of numpy. *)
Class Numpy := {
  Obj : Type;
  ndarray : Type;
  Scalar : Type;
  Lattice : Type;
  RCell : Type;
  np_array : Obj -> ndarray;                    (* np.array(x) *)
  shape : ndarray -> list nat;                  (* a.shape *)
  np_ones : nat -> ndarray;                     (* np.ones(n) *)
  np_zeros : nat -> ndarray;                    (* np.zeros(n) *)
  np_origin : ndarray;                          (* np.array([[0, 0, 0]]) *)
  reshape3 : ndarray -> py ndarray;             (* a.reshape((-1, 3)) *)
  np_append : option ndarray -> Obj -> ndarray; (* np.append(a, x) *)
  np_prod : option ndarray -> py Scalar;        (* np.prod(a) *)
  py_int : Obj -> py Z;                         (* int(x) *)
  py_str : Obj -> option string;                (* x, when it is a string *)
  reciprocal_cell : Lattice -> py RCell;        (* lattice.reciprocal().cell *)
  inverse_volume : Lattice -> py Obj;           (* 1.0 / lattice.volume *)
  optimized : RCell -> Obj -> py ndarray;       (* lines 257-264 *)
  shape_ones : forall n, shape (np_ones n) = [n];
  shape_zeros : forall n, shape (np_zeros n) = [n];
  shape_origin : shape np_origin = [1%nat; 3%nat];
  shape_reshape3 :
    forall a, shape a = [3%nat] ->
      exists b, reshape3 a = Return b /\ shape b = [1%nat; 3%nat]
}.

Section Class.

Context `{Numpy}.

Record KPoints := {
  kmode : string;
  kpoints_list : option ndarray;
  weights : option ndarray;
  grid : option ndarray;
  shifts : option ndarray;
  kvertices : option ndarray;
  intermediates : option Z
}.

Definition with_kpoints_list (a : option ndarray) (k : KPoints) : KPoints :=
  {| kmode := kmode k; kpoints_list := a; weights := weights k;
     grid := grid k; shifts := shifts k; kvertices := kvertices k;
     intermediates := intermediates k |}.
Definition with_weights (a : option ndarray) (k : KPoints) : KPoints :=
  {| kmode := kmode k; kpoints_list := kpoints_list k; weights := a;
     grid := grid k; shifts := shifts k; kvertices := kvertices k;
     intermediates := intermediates k |}.
Definition with_grid (a : option ndarray) (k : KPoints) : KPoints :=
  {| kmode := kmode k; kpoints_list := kpoints_list k; weights := weights k;
     grid := a; shifts := shifts k; kvertices := kvertices k;
     intermediates := intermediates k |}.
Definition with_shifts (a : option ndarray) (k : KPoints) : KPoints :=
  {| kmode := kmode k; kpoints_list := kpoints_list k; weights := weights k;
     grid := grid k; shifts := a; kvertices := kvertices k;
     intermediates := intermediates k |}.
Definition with_kvertices (a : option ndarray) (k : KPoints) : KPoints :=
  {| kmode := kmode k; kpoints_list := kpoints_list k; weights := weights k;
     grid := grid k; shifts := shifts k; kvertices := a;
     intermediates := intermediates k |}.
Definition with_intermediates (n : option Z) (k : KPoints) : KPoints :=
  {| kmode := kmode k; kpoints_list := kpoints_list k; weights := weights k;
     grid := grid k; shifts := shifts k; kvertices := kvertices k;
     intermediates := n |}.

(** A method leaves the object as it is when it returns or raises: what it
    had assigned before an exception stays assigned. *)
Definition method : Type := KPoints * option error.

(** [len(a)] of an array, and of an attribute that may be [None]. *)
Definition len (a : ndarray) : py nat :=
  match shape a with
  | n :: _ => Return n
  | [] => Raise TypeError
  end.

Definition len_attr (a : option ndarray) : py nat :=
  match a with
  | Some a => len a
  | None => Raise TypeError
  end.

(** The three-way test of lines 129-134 and 96-101: a vector of three
    becomes one row, an array with three columns is taken as it is; the
    second entry of the shape is read without asking whether there is one. *)
Definition rows_of_three (msg : string) (x : Obj) : py ndarray :=
  let a := np_array x in
  if bool_decide (shape a = [3%nat]) then reshape3 a
  else
    match shape a !! 1%nat with
    | None => Raise IndexError
    | Some c =>
        if bool_decide (c = 3%nat) then Return a else Raise (ValueError msg)
    end.

(** [set_kpoints_list] *)
Definition set_kpoints_list (self : KPoints) (kl w : option Obj) : method :=
  if negb (is_in (kmode self) explicit_modes) then (self, Some AssertionError)
  else
    match
      match kl with
      | None => Return np_origin
      | Some x =>
          rows_of_three
            "Wrong value for kpoints_list, should be an array with shape (nkpt,3)"
            x
      end
    with
    | Raise e => (self, Some e)
    | Return a =>
        let self := with_kpoints_list (Some a) self in
        match len a with
        | Raise e => (self, Some e)
        | Return nkpt =>
            match w with
            | None => (with_weights (Some (np_ones nkpt)) self, None)
            | Some x =>
                match len (np_array x) with
                | Raise e => (self, Some e)
                | Return n =>
                    if bool_decide (n = nkpt)
                    then (with_weights (Some (np_array x)) self, None)
                    else
                      (self,
                       Some (ValueError
                         "Wrong value for weights, should be an array with shape (nkpt,)"))
                end
            end
        end
    end.

(** [set_grid] *)
Definition set_grid (self : KPoints) (g s : option Obj) : method :=
  if negb (is_in (kmode self) grid_modes) then (self, Some AssertionError)
  else
    match
      match g with
      | None => Return (np_ones 3)
      | Some x =>
          if bool_decide (shape (np_array x) = [3%nat]) then Return (np_array x)
          else Raise (ValueError
                 "Wrong value for grid, should be an array with shape (3,)")
      end
    with
    | Raise e => (self, Some e)
    | Return a =>
        let self := with_grid (Some a) self in
        match s with
        | None => (with_shifts (Some (np_zeros 3)) self, None)
        | Some x =>
            if bool_decide (shape (np_array x) = [3%nat])
            then (with_shifts (Some (np_array x)) self, None)
            else
              (self,
               Some (ValueError
                 "Wrong value for shifts, should be an array with shape (3,)"))
        end
    end.

(** [add_kpt] *)
Definition add_kpt (self : KPoints) (kpoint weight : Obj) : method :=
  if negb (is_in (kmode self) explicit_modes) then (self, Some AssertionError)
  else
    match reshape3 (np_append (kpoints_list self) kpoint) with
    | Raise e => (self, Some e)
    | Return a =>
        let self := with_kpoints_list (Some a) self in
        (with_weights (Some (np_append (weights self) weight)) self, None)
    end.

(** [__init__]: the object exists only if the constructor returns. *)
Definition init (kmode0 : string)
    (kpoints_list0 weights0 shifts0 grid0 kvertices0 intermediates0 : option Obj)
    : py KPoints :=
  if negb (is_in (lower kmode0) all_modes) then
    Raise (ValueError
      "kmode must be 'cartesian', 'reciprocal', 'gamma', 'monkhorst-pack' or 'path'")
  else
    let self :=
      {| kmode := lower kmode0; kpoints_list := None; weights := None;
         grid := None; shifts := None; kvertices := None;
         intermediates := None |} in
    if is_in (kmode self) explicit_modes then
      match set_kpoints_list self kpoints_list0 weights0 with
      | (self, None) => Return self
      | (_, Some e) => Raise e
      end
    else if is_in (kmode self) grid_modes then
      match set_grid self grid0 shifts0 with
      | (self, None) => Return self
      | (_, Some e) => Raise e
      end
    else if String.eqb (kmode self) "path" then
      and_then
        match kvertices0 with
        | None => Return np_origin
        | Some x =>
            rows_of_three
              "Wrong value for kvertices, should be an array with shape (nkpt,3)"
              x
        end
        (fun kv =>
           let self := with_kvertices (Some kv) self in
           match intermediates0 with
           | None => Return (with_intermediates (Some 1) self)
           | Some x =>
               and_then (py_int x)
                 (fun n => Return (with_intermediates (Some n) self))
           end)
    else Return self.

(** What [nkpt] returns: a length, the product of an array, or nothing.
    [np.prod] is numpy's to answer: it raises on an array it cannot
    multiply, and [set_grid] checks the shape of a grid only. *)
Inductive count :=
| Length (n : Z)
| Product (s : Scalar)
| NoCount.

(** [nkpt] *)
Definition nkpt (self : KPoints) : py count :=
  if is_in (kmode self) explicit_modes then
    and_then (len_attr (kpoints_list self))
      (fun n => Return (Length (Z.of_nat n)))
  else if is_in (kmode self) grid_modes then
    and_then (np_prod (grid self)) (fun p => Return (Product p))
  else if String.eqb (kmode self) "path" then
    and_then (len_attr (kvertices self))
      (fun n =>
         match intermediates self with
         | Some m => Return (Length (Z.of_nat n * m))
         | None => Raise TypeError
         end)
  else Return NoCount.

(** [d[k]] on the dictionary of [from_dict]; an entry may hold [None]. *)
Definition item (d : gmap string (option Obj)) (k : string) : py (option Obj) :=
  match d !! k with
  | Some v => Return v
  | None => Raise (KeyError k)
  end.

(** [d['kmode'] in l] *)
Definition kmode_in (v : option Obj) (l : list string) : bool :=
  match v with
  | Some x =>
      match py_str x with
      | Some s => is_in s l
      | None => false
      end
  | None => false
  end.

Definition kmode_string (v : option Obj) : string :=
  match v with
  | Some x => default "" (py_str x)
  | None => ""
  end.

(** [from_dict]: the object, or [None] when no branch is taken. *)
Definition from_dict (d : gmap string (option Obj)) : py (option KPoints) :=
  and_then (item d "kmode") (fun v =>
  if kmode_in v explicit_modes then
    and_then (item d "kpoints_list") (fun kl =>
    and_then (item d "weights") (fun w =>
    and_then (init (kmode_string v) kl w None None None None)
      (fun k => Return (Some k))))
  else if kmode_in v grid_modes then
    and_then (item d "grid") (fun g =>
    and_then (item d "shifts") (fun s =>
    and_then (init (kmode_string v) None None s g None None)
      (fun k => Return (Some k))))
  else if kmode_in v ["path"] then
    and_then (item d "kvertices") (fun kv =>
    and_then (item d "intermediates") (fun n =>
    and_then (init (kmode_string v) None None None None kv n)
      (fun k => Return (Some k))))
  else Return None).

(** [set_optimized_grid].  The name [nkpt] of line 254 is bound neither in
    the method nor in the module, so reading it raises [NameError]; the
    arithmetic of lines 257-264 (row lengths of the reciprocal cell, cube
    root of the density, rounding up, at least one point) is [optimized].
    The method does not look at [kmode]. *)
Definition set_optimized_grid (self : KPoints) (lattice : Lattice)
    (density_of_kpoints number_of_kpoints : option Obj) : method :=
  match number_of_kpoints, density_of_kpoints with
  | None, None =>
      (self, Some (ValueError "Provide density or number of kpoints"))
  | Some _, Some _ =>
      (self, Some (ValueError "Provide density OR number of kpoints, not both"))
  | Some _, None =>
      match reciprocal_cell lattice with
      | Raise e => (self, Some e)
      | Return _ =>
          match inverse_volume lattice with
          | Raise e => (self, Some e)
          | Return _ => (self, Some (NameError "nkpt"))
          end
      end
  | None, Some density =>
      match reciprocal_cell lattice with
      | Raise e => (self, Some e)
      | Return rcell =>
          match optimized rcell density with
          | Raise e => (self, Some e)
          | Return g => (with_grid (Some g) self, None)
          end
      end
  end.

(** An argument that is [None] or converts to an array of shape [(3,)]. *)
Definition three_or_none (x : option Obj) : Prop :=
  match x with
  | None => True
  | Some x => shape (np_array x) = [3%nat]
  end.

End Class.

End Kpt.

(** ** A small numpy to run the class on

    Values are numbers, strings, vectors and lists of rows; an array is its
    shape with its entries, row by row. *)

Inductive value :=
| Num (n : Z)
| Str (s : string)
| Vec (l : list Z)
| Rows (l : list (list Z)).

Definition entries (sh : list nat) : nat := foldr Nat.mul 1%nat sh.

Definition sample_array (x : value) : list nat * list Z :=
  match x with
  | Num n => ([], [n])
  | Str _ => ([], [])
  | Vec l => ([length l], l)
  | Rows [] => ([0%nat], [])
  | Rows (r :: rs) =>
      if forallb (fun r' => Nat.eqb (length r') (length r)) rs
      then ([S (length rs); length r], concat (r :: rs))
      else ([S (length rs)], [])
  end.

Definition sample_reshape3 (a : list nat * list Z) : Kpt.py (list nat * list Z) :=
  if Nat.eqb (entries a.1 mod 3) 0
  then Kpt.Return ([(entries a.1 / 3)%nat; 3%nat], a.2)
  else Kpt.Raise (Kpt.ValueError "total size of new array must be unchanged").

Definition sample_append (a : option (list nat * list Z)) (x : value)
    : list nat * list Z :=
  let old := match a with Some a => a.2 | None => [] end in
  let new := (sample_array x).2 in
  ([length (old ++ new)], old ++ new).

Definition sample_reshape3_three (a : list nat * list Z) :
  a.1 = [3%nat] ->
  exists b, sample_reshape3 a = Kpt.Return b /\ b.1 = [1%nat; 3%nat].
Proof.
  destruct a as [sh d]. simpl. intros ->. eexists. split; reflexivity.
Defined.

Definition sample_numpy : Kpt.Numpy := {|
  Kpt.Obj := value;
  Kpt.ndarray := list nat * list Z;
  Kpt.Scalar := Z;
  Kpt.Lattice := unit;
  Kpt.RCell := unit;
  Kpt.np_array := sample_array;
  Kpt.shape := fst;
  Kpt.np_ones := fun n => ([n], replicate n 1);
  Kpt.np_zeros := fun n => ([n], replicate n 0);
  Kpt.np_origin := ([1%nat; 3%nat], [0; 0; 0]);
  Kpt.reshape3 := sample_reshape3;
  Kpt.np_append := sample_append;
  Kpt.np_prod := fun a =>
    match a with
    | Some a => Kpt.Return (foldr Z.mul 1 a.2)
    | None => Kpt.Raise Kpt.TypeError
    end;
  Kpt.py_int := fun x => match x with Num n => Kpt.Return n | _ => Kpt.Raise Kpt.TypeError end;
  Kpt.py_str := fun x => match x with Str s => Some s | _ => None end;
  Kpt.reciprocal_cell := fun _ => Kpt.Return tt;
  Kpt.inverse_volume := fun _ => Kpt.Return (Num 1);
  Kpt.optimized := fun _ d =>
    match d with
    | Num n => Kpt.Return ([3%nat], [Z.max n 1; Z.max n 1; Z.max n 1])
    | _ => Kpt.Raise Kpt.TypeError
    end;
  Kpt.shape_ones := fun _ => eq_refl;
  Kpt.shape_zeros := fun _ => eq_refl;
  Kpt.shape_origin := eq_refl;
  Kpt.shape_reshape3 := sample_reshape3_three
|}.


(** Arguments used below: the grid [[7, 7, 7]], two k-points, a flat list
    of two numbers, and the dictionary of a gamma-centred grid. *)
Definition seven : value := Vec [7; 7; 7].

Definition two_points : value := Rows [[0; 0; 0]; [1; 0; 0]].

Definition flat_pair : value := Vec [1; 2].

Definition sample_dict : gmap string (option value) :=
  {[ "kmode"%string := Some (Str "gamma");
     "grid"%string := Some seven;
     "shifts"%string := None ]}.

(** [KPoints(kmode='reciprocal')]: the origin with weight one. *)
Definition sample_points : @Kpt.KPoints sample_numpy :=
  @Kpt.Build_KPoints sample_numpy "reciprocal"
    (Some (@Kpt.np_origin sample_numpy)) (Some (@Kpt.np_ones sample_numpy 1))
    None None None None.

(** ** Facts about the scorer *)

Section ScorerFacts.

Context `{Adapter}.

Ltac step_monad :=
  unfold bind, ret, lift, get_self, get_dftb, set_self, set_dftb, log, emit,
    getitem, when.

Lemma last_first_item {A} (l : list A) (x : A) :
  last l = Some x -> exists y, first_item l = Ok y.
Proof. destruct l as [|y l']; [discriminate | intros _; exists y; reflexivity]. Qed.

(** The scorer without a max-force entry. *)
Lemma quality_no_max_force (w : World) (s : Z) (st : state) (b : bool) :
  stats w st !! "ion_convergence" = Some b ->
  geom_optimization w st !! "max_force" = None ->
  quality w s st = Done (s + 1) st.
Proof.
  unfold stats, geom_optimization, stdout_log, quality.
  step_monad.
  destruct (read_dftb_stdout w _) as [[bo geo] sts]; simpl.
  intros -> ->. destruct b; rewrite ?Z.add_0_r; reflexivity.
Qed.

(** The scorer with a max-force entry and no max-lattice-force entry. *)
Lemma quality_no_lattice (w : World) (s : Z) (st : state) (b : bool)
    (mf : list float) (f : float) :
  stats w st !! "ion_convergence" = Some b ->
  geom_optimization w st !! "max_force" = Some mf ->
  last mf = Some f ->
  geom_optimization w st !! "max_lattice_force" = None ->
  quality w s st = Done (s + 1) st.
Proof.
  unfold stats, geom_optimization, stdout_log, quality.
  step_monad.
  destruct (read_dftb_stdout w _) as [[bo geo] sts]; simpl.
  intros -> -> Hf ->.
  destruct (last_first_item _ _ Hf) as [y Hy].
  unfold last_item. rewrite Hf, Hy.
  repeat case_match; rewrite ?Z.add_0_r; reflexivity.
Qed.

(** The scorer with both entries: the bonus depends on the two last values. *)
Lemma quality_both (w : World) (s : Z) (st : state) (b : bool)
    (mf ml : list float) (f l : float) :
  stats w st !! "ion_convergence" = Some b ->
  geom_optimization w st !! "max_force" = Some mf ->
  last mf = Some f ->
  geom_optimization w st !! "max_lattice_force" = Some ml ->
  last ml = Some l ->
  quality w s st =
    if flt f (target_forces (self st)) && flt l (target_forces (self st))
    then Done (s + 101) (logged bonus_message st)
    else Done (s + 1) st.
Proof.
  unfold stats, geom_optimization, stdout_log, quality.
  step_monad.
  destruct (read_dftb_stdout w _) as [[bo geo] sts]; simpl.
  intros -> -> Hf -> Hl.
  destruct (last_first_item _ _ Hf) as [y Hy].
  destruct (last_first_item _ _ Hl) as [z Hz].
  unfold last_item. rewrite Hf, Hl. simpl.
  destruct (flt f _ && flt l _); simpl; rewrite ?Hy; simpl;
    rewrite ?Hz; simpl;
    repeat case_match; rewrite ?Z.add_0_r;
    try reflexivity; f_equal; lia.
Qed.

(** Whatever the progress log holds, a score that comes back is the old one
    plus 1, or plus 101 with the bonus logged; nothing else changes. *)
Lemma quality_done (w : World) (s r : Z) (st st' : state) :
  quality w s st = Done r st' ->
  (r = s + 1 /\ st' = st) \/ (r = s + 101 /\ st' = logged bonus_message st).
Proof.
  intros Hq.
  destruct (stats w st !! "ion_convergence") as [b|] eqn:Hs.
  2:{ revert Hq Hs. unfold stats, stdout_log, quality. step_monad.
      destruct (read_dftb_stdout w _) as [[bo geo] sts]; simpl.
      intros Hq Hs. rewrite Hs in Hq. discriminate. }
  destruct (geom_optimization w st !! "max_force") as [mf|] eqn:Hmf.
  2:{ rewrite (quality_no_max_force w s st b Hs Hmf) in Hq.
      left. by simplify_eq. }
  destruct (last mf) as [f|] eqn:Hf.
  2:{ revert Hq Hs Hmf. unfold stats, geom_optimization, stdout_log, quality.
      step_monad.
      destruct (read_dftb_stdout w _) as [[bo geo] sts]; simpl.
      intros Hq Hs Hmf. rewrite Hs, Hmf in Hq. unfold last_item in Hq.
      rewrite Hf in Hq. discriminate. }
  destruct (geom_optimization w st !! "max_lattice_force") as [ml|] eqn:Hml.
  2:{ rewrite (quality_no_lattice w s st b mf f Hs Hmf Hf Hml) in Hq.
      left. by simplify_eq. }
  destruct (last ml) as [l|] eqn:Hl.
  2:{ revert Hq Hs Hmf Hml.
      unfold stats, geom_optimization, stdout_log, quality.
      step_monad.
      destruct (read_dftb_stdout w _) as [[bo geo] sts]; simpl.
      intros Hq Hs Hmf Hml. rewrite Hs, Hmf, Hml in Hq. unfold last_item in Hq.
      rewrite Hf, Hl in Hq. discriminate. }
  rewrite (quality_both w s st b mf ml f l Hs Hmf Hf Hml Hl) in Hq.
  destruct (flt f _ && flt l _); simplify_eq; auto.
Qed.

(** A readable log gives a score. *)
Lemma quality_total (w : World) (s : Z) (st : state) :
  readable_log w st -> exists r st', quality w s st = Done r st'.
Proof.
  intros ([b Hb] & Hmf & Hml).
  destruct (geom_optimization w st !! "max_force") as [mf|] eqn:Emf.
  2:{ eexists _, _. eapply quality_no_max_force; eauto. }
  destruct (last mf) as [f|] eqn:Ef.
  2:{ apply last_None in Ef. by destruct (Hmf mf). }
  destruct (geom_optimization w st !! "max_lattice_force") as [ml|] eqn:Eml.
  2:{ eexists _, _. eapply quality_no_lattice; eauto. }
  destruct (last ml) as [l|] eqn:El.
  2:{ apply last_None in El. by destruct (Hml ml). }
  rewrite (quality_both w s st b mf ml f l Hb Emf Ef Eml El).
  destruct (_ && _); eauto.
Qed.

(** Over a series of runs the score grows by at least one per run, and as
    long as it stays below the bonus it counts the runs. *)
Lemma score_after_counts (ws : list World) :
  forall (s r : Z) (st st' : state),
    score_after ws s st = Done r st' ->
    s + Z.of_nat (length ws) <= r /\
    (r < s + 101 -> r = s + Z.of_nat (length ws)).
Proof.
  induction ws as [|w rest IH]; intros s r st st' Hrun.
  - simpl in Hrun. unfold ret in Hrun. simplify_eq. simpl. lia.
  - simpl in Hrun. unfold bind in Hrun.
    destruct (quality w s st) as [r1 st1|e st1] eqn:Hq; [|discriminate].
    apply IH in Hrun as [Hge Hlow].
    apply quality_done in Hq as [[-> _]|[-> _]];
      rewrite length_cons, Nat2Z.inj_succ; lia.
Qed.

(** C3: with both histories non-empty, final max force and final max
    lattice force both below the target give the old score plus 101; if
    either is not below the target the score is the old one plus 1. *)
Theorem quality_bonus_iff_both_below_target (w : World) (s : Z) (st : state)
    (b : bool) (mf ml : list float) (f l : float) :
  stats w st !! "ion_convergence" = Some b ->
  geom_optimization w st !! "max_force" = Some mf ->
  last mf = Some f ->
  geom_optimization w st !! "max_lattice_force" = Some ml ->
  last ml = Some l ->
  (flt f (target_forces (self st)) = true ->
   flt l (target_forces (self st)) = true ->
   quality w s st = Done (s + 101) (logged bonus_message st)) /\
  (flt f (target_forces (self st)) = false \/
   flt l (target_forces (self st)) = false ->
   quality w s st = Done (s + 1) st).
Proof.
  intros Hb Hmf Hf Hml Hl.
  rewrite (quality_both w s st b mf ml f l Hb Hmf Hf Hml Hl).
  split.
  - intros -> ->. reflexivity.
  - intros [-> | ->]; [reflexivity | by rewrite andb_false_r].
Qed.

(** C4, as the code has it: without a max-force entry the scorer returns
    the incoming score plus 1, the increment of line 159 being already
    applied when it returns early. *)
Theorem quality_early_exit_adds_one (w : World) (s : Z) (st : state) :
  is_Some (stats w st !! "ion_convergence") ->
  geom_optimization w st !! "max_force" = None ->
  quality w s st = Done (s + 1) st.
Proof. intros [b Hb] Hmf. by eapply quality_no_max_force. Qed.

(** C6: a score that comes back is at least the old one plus 1, hence never
    below the old one, and every readable progress log gives a score. *)
Theorem quality_increases (w : World) (s : Z) (st : state) :
  (forall r st', quality w s st = Done r st' -> s <= r /\ s + 1 <= r) /\
  (readable_log w st ->
   exists r st', quality w s st = Done r st' /\ s <= r /\ s + 1 <= r).
Proof.
  assert (Hstep : forall r st', quality w s st = Done r st' -> s <= r /\ s + 1 <= r).
  { intros r st' Hq. apply quality_done in Hq as [[-> _]|[-> _]]; lia. }
  split; [exact Hstep|].
  intros Hwf. destruct (quality_total w s st Hwf) as (r & st' & Hq).
  exists r, st'. split; [exact Hq | exact (Hstep r st' Hq)].
Qed.

(** C7, as the code has it: with a target of 1e-3 and a score of 0, a
    progress log that ends with a max force and a max lattice force of 5e-3
    gives the score 1: 5e-3 is not below the target, only the +1 applies. *)
Theorem quality_scenario_a (w : World) (st : state) (b : bool)
    (mf ml : list float) :
  target_forces (self st) = 0.001%float ->
  stats w st !! "ion_convergence" = Some b ->
  geom_optimization w st !! "max_force" = Some (mf ++ [0.005%float]) ->
  geom_optimization w st !! "max_lattice_force" = Some (ml ++ [0.005%float]) ->
  quality w 0 st = Done 1 st.
Proof.
  intros Ht Hb Hmf Hml.
  rewrite (quality_both w 0 st b _ _ 0.005%float 0.005%float Hb Hmf
             (last_snoc _ _) Hml (last_snoc _ _)).
  rewrite Ht. reflexivity.
Qed.

(** C9: with a max-force entry the scorer adds exactly 1 or exactly 101.
    Hence, counting from 0, the run at which the score first reaches 20
    either earns the bonus itself, all runs before it having added 1 each,
    or is the twentieth of twenty runs without a bonus. *)
Theorem quality_adds_1_or_101 (w : World) (s : Z) (st : state) (mf : list float) :
  (geom_optimization w st !! "max_force" = Some mf ->
   readable_log w st ->
   exists r st', quality w s st = Done r st' /\ (r - s = 1 \/ r - s = 101)) /\
  (forall (ws : list World) (st0 st1 st' : state) (r0 r : Z),
     score_after ws 0 st0 = Done r0 st1 ->
     r0 < 20 ->
     quality w r0 st1 = Done r st' ->
     20 <= r ->
     (r = r0 + 101 /\ r0 = Z.of_nat (length ws)) \/
     (r = 20 /\ length ws = 19%nat)).
Proof.
  split.
  - intros _ Hwf. destruct (quality_total w s st Hwf) as (r & st' & Hq).
    exists r, st'. split; [exact Hq|].
    apply quality_done in Hq as [[-> _]|[-> _]]; lia.
  - intros ws st0 st1 st' r0 r Hruns Hlow Hq Hreach.
    apply score_after_counts in Hruns as [_ Hcount].
    apply quality_done in Hq as [[-> _]|[-> _]]; lia.
Qed.

End ScorerFacts.

(** ** Facts about the controller loop *)

Section RunFacts.

Context `{Adapter}.

(** The scorer reads the target and the path of the progress log and
    nothing else of the state: where these agree, so do the scores. *)
Lemma quality_stable (w : World) (s r : Z) (st1 st1' st2 : state) :
  stdout_log st2 = stdout_log st1 ->
  target_forces (self st2) = target_forces (self st1) ->
  quality w s st1 = Done r st1' ->
  (r = s + 1 /\ quality w s st2 = Done r st2) \/
  (r = s + 101 /\ quality w s st2 = Done r (logged bonus_message st2)).
Proof.
  intros Hlog Ht Hq.
  assert (Hst : stats w st2 = stats w st1) by (unfold stats; by rewrite Hlog).
  assert (Hgo : geom_optimization w st2 = geom_optimization w st1)
    by (unfold geom_optimization; by rewrite Hlog).
  destruct (stats w st1 !! "ion_convergence") as [b|] eqn:Hs.
  2:{ revert Hq Hs. unfold stats, stdout_log, quality.
      unfold bind, ret, lift, get_self, get_dftb, getitem.
      destruct (read_dftb_stdout w _) as [[bo geo] sts]; simpl.
      intros Hq Hs. rewrite Hs in Hq. discriminate. }
  destruct (geom_optimization w st1 !! "max_force") as [mf|] eqn:Hmf.
  2:{ rewrite (quality_no_max_force w s st1 b Hs Hmf) in Hq. simplify_eq.
      left. split; [done|]. eapply quality_no_max_force; by rewrite ?Hst, ?Hgo. }
  destruct (last mf) as [f|] eqn:Hf.
  2:{ revert Hq Hs Hmf. unfold stats, geom_optimization, stdout_log, quality.
      unfold bind, ret, lift, get_self, get_dftb, getitem.
      destruct (read_dftb_stdout w _) as [[bo geo] sts]; simpl.
      intros Hq Hs Hmf. rewrite Hs, Hmf in Hq. unfold last_item in Hq.
      rewrite Hf in Hq. discriminate. }
  destruct (geom_optimization w st1 !! "max_lattice_force") as [ml|] eqn:Hml.
  2:{ rewrite (quality_no_lattice w s st1 b mf f Hs Hmf Hf Hml) in Hq.
      simplify_eq. left. split; [done|].
      eapply quality_no_lattice; rewrite ?Hst, ?Hgo; eauto. }
  destruct (last ml) as [l|] eqn:Hl.
  2:{ revert Hq Hs Hmf Hml.
      unfold stats, geom_optimization, stdout_log, quality.
      unfold bind, ret, lift, get_self, get_dftb, getitem.
      destruct (read_dftb_stdout w _) as [[bo geo] sts]; simpl.
      intros Hq Hs Hmf Hml. rewrite Hs, Hmf, Hml in Hq. unfold last_item in Hq.
      rewrite Hf, Hl in Hq. discriminate. }
  rewrite (quality_both w s st1 b mf ml f l Hs Hmf Hf Hml Hl) in Hq.
  rewrite <- Hst in Hs. rewrite <- Hgo in Hmf, Hml.
  rewrite (quality_both w s st2 b mf ml f l Hs Hmf Hf Hml Hl), Ht.
  destruct (flt f _ && flt l _); simplify_eq; auto.
Qed.


Ltac run_quality Hq :=
  match goal with
  | |- context [quality ?w ?s ?x] =>
      let Hq2 := fresh "Hq2" in
      match type of Hq with
      | quality _ _ ?st0 = Done ?r ?st1 =>
          destruct (quality_stable w s r st0 st1 x eq_refl eq_refl Hq)
            as [[-> Hq2]|[-> Hq2]];
          rewrite Hq2
      end
  end.


(* Split a list that is written out in front of a suffix that is written
   out: the prefix is what [take] leaves. *)
Ltac find_split :=
  match goal with
  | |- ?l = ?pre ++ ?suf =>
      unify pre (take (Nat.sub (length l) (length suf)) l);
      reflexivity
  end.

Ltac not_in_list :=
  let Hin := fresh "Hin" in
  intros Hin;
  repeat (apply elem_of_cons in Hin as [Hin|Hin]; [discriminate Hin|]);
  by apply elem_of_nil in Hin.

Ltac in_list :=
  repeat first [apply list_elem_of_here | apply list_elem_of_further].

(* [x ∈ l <-> P] for a list and a proposition that are written out. *)
Ltac decide_in :=
  split;
  [ first [by intros _ | not_in_list]
  | first [by (intros _; in_list) | by intros ? | by intros [? ?]] ].

Ltac norm :=
  cbv [bind ret lift set_self set_dftb get_self get_dftb emit log when
       driver_set hamiltonian_set options_set
       dftb_set_inputs dftb_run runner_wait dftb_run_status dftb_get_geometry
       dftb_roll_outputs time_sleep];
  simpl.

(* The calls of lines 67 and 75 return: that is the hypothesis. *)
Ltac run_reports :=
  repeat match goal with
         | H : context [max_abs_axis ?t ?x] |- context [max_abs_axis ?t ?x] =>
             simpl in H; destruct (max_abs_axis t x) eqn:?;
             [|discriminate H]; norm
         end.

(** An evaluation that scores below 20, executed to its end. *)
Lemma loop_body_relax (o : Obs) (irun score sc rc : Z) (st stq : state)
    (forces stress : option Tensor) (energy : option float) :
  runner (dftb st) = true ->
  poll o = Some rc ->
  path_exists (now o) (detailed_out st) = true ->
  read_detailed_out (now o) (detailed_out st) = (forces, stress, energy) ->
  reported (target_forces (self st)) forces = true ->
  reported (target_forces (self st)) stress = true ->
  quality (now o) score st = Done sc stq ->
  sc < 20 ->
  exists st',
    loop_body o irun score st = Done (Next (irun + 1) sc) st' /\
    self st' =
      with_current (symmetrize (read_geometry_gen (now o) (geo_end st))) (self st) /\
    dftb_structure (dftb st') =
      symmetrize (read_geometry_gen (now o) (geo_end st)) /\
    hamiltonian (dftb st') = hamiltonian (dftb st) /\
    options (dftb st') = options (dftb st) /\
    driver (dftb st') !! "ConvergentForcesOnly" =
      Some (PBool (both_present forces stress)) /\
    (is_good (target_forces (self st)) forces = false ->
     is_good (target_forces (self st)) stress = false ->
     driver (dftb st') =
       <["ConvergentForcesOnly" := PBool (both_present forces stress)]>
         (driver (dftb st))) /\
    exists pre,
      trace st' =
        trace st ++ pre ++
        [EGetGeometry; ERollOutputs irun;
         ESetInputs (dftb_structure (dftb st')) (driver (dftb st'))
           (hamiltonian (dftb st')) (options (dftb st'));
         ERun] ++ (if waiting (self st) then [EWait] else []) /\
      (final_static_message ∉ pre) /\
      (cell_message ∈ pre <->
       is_good (target_forces (self st)) forces = true) /\
      (internals_message ∈ pre <->
       is_good (target_forces (self st)) forces = false /\
       is_good (target_forces (self st)) stress = true).
Proof.
  intros Hr Hp He Hd Hrf Hrs Hq Hlt.
  unfold loop_body, detailed_out, geo_end in *.
  unfold bind at 1. unfold get_dftb at 1. rewrite Hr, Hp.
  norm. rewrite He. simpl.
  unfold evaluate. rewrite Hd.
  unfold reported in Hrf, Hrs.
  unfold set_convergent_forces_only, classify, is_good in *.
  destruct forces as [f|], stress as [t|]; norm.
  all: repeat (match goal with
               | |- context [flt ?a ?b] => destruct (flt a b) eqn:?
               end; norm; run_reports).
  all: run_quality Hq; norm; rewrite (proj2 (Z.ltb_lt _ _) Hlt).
  all: unfold decide_relaxation, resubmit; norm.
  all: destruct (waiting (self st)); norm.
  all: eexists; split; [reflexivity|]; simpl.
  all: split; [reflexivity|].
  all: split; [reflexivity|].
  all: split; [reflexivity|].
  all: split; [reflexivity|].
  all: split; [rewrite ?lookup_insert_ne by done; apply lookup_insert_eq|].
  all: split; [intros; first [discriminate | reflexivity]|].
  all: rewrite <- !app_assoc; simpl.
  all: eexists; split; [f_equal; find_split|].
  all: simpl; split; [not_in_list|].
  all: split; decide_in.
Qed.
(** *** The pieces of the loop *)

Lemma logged_all_nil (st : state) : logged_all [] st = st.
Proof. destruct st. unfold logged_all. simpl. by rewrite app_nil_r. Qed.

Lemma logged_all_cons (e : event) (ev : list event) (st : state) :
  logged_all ev (logged e st) = logged_all (e :: ev) st.
Proof. unfold logged_all, logged. simpl. by rewrite <- app_assoc. Qed.

(** The polling loops of the final static calculation only sleep and ask
    for the status. *)
Lemma times_sleep (n : nat) (st : state) :
  times n (time_sleep 10) st = Done tt (logged_all (replicate n (ESleep 10)) st).
Proof.
  revert st. induction n as [|n IH]; intros st; simpl.
  - unfold ret. by rewrite logged_all_nil.
  - unfold bind, time_sleep, emit. by rewrite IH, logged_all_cons.
Qed.

Lemma times_status (n : nat) (st : state) :
  times n (bind dftb_run_status (fun _ => time_sleep 10)) st =
  Done tt (logged_all (concat (replicate n [ERunStatus; ESleep 10])) st).
Proof.
  revert st. induction n as [|n IH]; intros st; simpl.
  - unfold ret. by rewrite logged_all_nil.
  - unfold bind, dftb_run_status, time_sleep, emit.
    by rewrite IH, !logged_all_cons.
Qed.

Lemma basic_input_workdir (d : DFTBplus) :
  dftb_workdir (basic_input d) = dftb_workdir d.
Proof. unfold basic_input. by destruct (basic_options d) as [[? ?] ?]. Qed.

Lemma basic_input_runner (d : DFTBplus) : runner (basic_input d) = runner d.
Proof. unfold basic_input. by destruct (basic_options d) as [[? ?] ?]. Qed.

Lemma basic_input_structure (d : DFTBplus) :
  dftb_structure (basic_input d) = dftb_structure d.
Proof. unfold basic_input. by destruct (basic_options d) as [[? ?] ?]. Qed.

(** The first run: the job is untouched, the adapter works in the job's
    directory and its subprocess is started. *)
Lemma first_run_done (st : state) :
  exists st1,
    first_run st = Done tt st1 /\
    self st1 = self st /\
    dftb_workdir (dftb st1) = workdir (self st) /\
    runner (dftb st1) = true.
Proof.
  unfold first_run. norm.
  destruct (waiting (self st)); norm;
    (eexists; split; [reflexivity|]; simpl;
     rewrite basic_input_workdir; by simpl).
Qed.

(** The process has exited without a [detailed.out]: an error is logged
    and the loop is left. *)
Lemma loop_body_missing (o : Obs) (irun score rc : Z) (st : state) :
  runner (dftb st) = true ->
  poll o = Some rc ->
  path_exists (now o) (detailed_out st) = false ->
  loop_body o irun score st =
  Done Break
    (logged (ELog Error ("Could not find " +:+ detailed_out st) [])
       (logged (ELog Info "Execution completed. Return code %d" [PInt rc]) st)).
Proof.
  intros Hr Hp He. unfold loop_body, detailed_out in *.
  unfold bind at 1. unfold get_dftb at 1. rewrite Hr, Hp.
  norm. rewrite He. reflexivity.
Qed.

(** The process is still alive: the loop goes on as it is. *)
Lemma loop_body_running (o : Obs) (irun score : Z) (st : state) :
  poll o = None ->
  loop_body o irun score st =
  Done (Next irun score)
    (logged (ESleep 10)
       (logged (ELog Debug "ID: %s" [PStr (basename (workdir (self st)))]) st)).
Proof.
  intros Hp. unfold loop_body.
  unfold bind at 1. unfold get_dftb at 1. rewrite Hp.
  replace (if runner (dftb st) then None else None) with (@None Z)
    by (by destruct (runner (dftb st))).
  unfold still_running. norm.
  by destruct (path_exists (now o) _).
Qed.

Lemma split_here {A} (l : list A) : l = [] ++ l.
Proof. reflexivity. Qed.

Lemma split_later {A} (x : A) (l pre suf : list A) :
  l = pre ++ suf -> x :: l = (x :: pre) ++ suf.
Proof. intros ->. reflexivity. Qed.

(* Split a list at the message of the final static calculation. *)
Ltac split_at_final :=
  lazymatch goal with
  | |- final_static_message :: _ = _ => apply split_here
  | |- _ :: _ = _ => apply split_later; split_at_final
  end.

(** The final static calculation always leaves the loop; it adopts the
    final geometry, symmetrized, and starts by logging its message. *)
Lemma final_static_done (o : Obs) (irun : Z) (st : state) :
  exists st',
    final_static o irun st = Done Break st' /\
    self st' =
      with_current
        (symmetrize
           (if path_isfile (now o) (workdir (self st) +:+ os_sep +:+ "geo_end.gen")
            then read_geometry_gen (now o)
                   (workdir (self st) +:+ os_sep +:+ "geo_end.gen")
            else structure (self st)))
        (self st) /\
    exists post, trace st' = trace st ++ final_static_message :: post.
Proof.
  unfold final_static, get_final_geometry. norm.
  destruct (path_isfile (now o) _); norm.
  all: destruct (waiting (self st)) eqn:Hw; norm.
  all: rewrite times_status; norm.
  all: destruct (read_detailed_out (after_static o) _) as [[fo so] eo].
  all: destruct so, fo, eo; norm.
  all: unfold fallback; norm; rewrite ?Hw; norm.
  all: rewrite ?times_sleep; norm.
  all: eexists; split; [reflexivity|]; simpl.
  all: split; [reflexivity|].
  all: rewrite <- ?app_assoc; simpl.
  all: eexists; f_equal; reflexivity.
Qed.

(** An evaluation that scores 20 or more runs the final static
    calculation and leaves the loop. *)
Lemma loop_body_final (o : Obs) (irun score sc rc : Z) (st stq : state)
    (forces stress : option Tensor) (energy : option float) :
  runner (dftb st) = true ->
  poll o = Some rc ->
  path_exists (now o) (detailed_out st) = true ->
  read_detailed_out (now o) (detailed_out st) = (forces, stress, energy) ->
  reported (target_forces (self st)) forces = true ->
  reported (target_forces (self st)) stress = true ->
  quality (now o) score st = Done sc stq ->
  20 <= sc ->
  exists st',
    loop_body o irun score st = Done Break st' /\
    same_job (self st) (self st') /\
    exists pre post,
      trace st' = trace st ++ pre ++ final_static_message :: post /\
      final_static_message ∉ pre.
Proof.
  intros Hr Hp He Hd Hrf Hrs Hq Hge.
  unfold loop_body, detailed_out in *.
  unfold bind at 1. unfold get_dftb at 1. rewrite Hr, Hp.
  norm. rewrite He. simpl.
  unfold evaluate. rewrite Hd.
  unfold reported in Hrf, Hrs.
  unfold set_convergent_forces_only, classify, is_good in *.
  destruct forces as [f|], stress as [t|]; norm.
  all: repeat (match goal with
               | |- context [flt ?a ?b] => destruct (flt a b) eqn:?
               end; norm; run_reports).
  all: run_quality Hq; norm; rewrite (proj2 (Z.ltb_ge _ _) Hge).
  all: match goal with
       | |- context [final_static ?o' ?i ?x] =>
           destruct (final_static_done o' i x) as (st' & -> & Hself & post & Ht)
       end.
  all: exists st'; split; [reflexivity|].
  all: split; [rewrite Hself; by repeat split|].
  all: rewrite Ht; simpl; rewrite <- !app_assoc; simpl.
  all: eexists _, post; split; [f_equal; split_at_final|].
  all: not_in_list.
Qed.

(** *** What the loop leaves of the job *)

Lemma same_job_refl (a : Relaxator) : same_job a a.
Proof. by repeat split. Qed.

Lemma same_job_trans (a b c : Relaxator) :
  same_job a b -> same_job b c -> same_job a c.
Proof.
  intros (? & ? & ? & ? & ?) (? & ? & ? & ? & ?).
  repeat split; congruence.
Qed.

Lemma same_job_current (s : Structure) (a : Relaxator) :
  same_job a (with_current s a).
Proof. by repeat split. Qed.

Lemma keeps_ret {A} (a : A) : keeps_job (ret a).
Proof. intros st. apply same_job_refl. Qed.

Lemma keeps_bind {A B} (c : M A) (k : A -> M B) :
  keeps_job c -> (forall a, keeps_job (k a)) -> keeps_job (bind c k).
Proof.
  intros Hc Hk st. unfold bind. specialize (Hc st).
  destruct (c st) as [a st1|e st1]; simpl in *; [|exact Hc].
  eapply same_job_trans; [exact Hc | apply Hk].
Qed.

Lemma keeps_lift {A} (r : result A) : keeps_job (lift r).
Proof. intros st. unfold lift. destruct r; apply same_job_refl. Qed.

Lemma keeps_get_self : keeps_job get_self.
Proof. intros st. apply same_job_refl. Qed.

Lemma keeps_get_dftb : keeps_job get_dftb.
Proof. intros st. apply same_job_refl. Qed.

Lemma keeps_set_dftb (f : DFTBplus -> DFTBplus) : keeps_job (set_dftb f).
Proof. intros st. apply same_job_refl. Qed.

Lemma keeps_emit (e : event) : keeps_job (emit e).
Proof. intros st. apply same_job_refl. Qed.

Lemma keeps_set_current (s : Structure) : keeps_job (set_self (with_current s)).
Proof. intros st. apply same_job_current. Qed.

Lemma keeps_when (b : bool) (c : M unit) : keeps_job c -> keeps_job (when b c).
Proof. intros Hc. destruct b; [exact Hc | apply keeps_ret]. Qed.

Lemma keeps_times (n : nat) (c : M unit) : keeps_job c -> keeps_job (times n c).
Proof.
  intros Hc. induction n as [|n IH]; simpl.
  - apply keeps_ret.
  - apply keeps_bind; [exact Hc | intros _; exact IH].
Qed.

Create HintDb keeps.
#[local] Hint Resolve keeps_ret keeps_lift keeps_get_self keeps_get_dftb
  keeps_set_dftb keeps_emit keeps_set_current keeps_when keeps_times : keeps.

Ltac keeps :=
  repeat first
    [ apply keeps_bind; [|intros]
    | apply keeps_when
    | apply keeps_times
    | solve [auto with keeps]
    | progress unfold driver_set, hamiltonian_set, options_set, log,
        dftb_set_inputs, dftb_run, runner_wait, dftb_run_status,
        dftb_get_geometry, dftb_roll_outputs, time_sleep
    | case_match ].

Lemma keeps_quality (w : World) (score : Z) : keeps_job (quality w score).
Proof. unfold quality. keeps. Qed.

Lemma keeps_first_run : keeps_job first_run.
Proof. unfold first_run. keeps. Qed.

Lemma keeps_final_static (o : Obs) (irun : Z) : keeps_job (final_static o irun).
Proof. unfold final_static, get_final_geometry, fallback. keeps. Qed.

Lemma keeps_loop_body (o : Obs) (irun score : Z) :
  keeps_job (loop_body o irun score).
Proof.
  unfold loop_body, evaluate, still_running, set_convergent_forces_only,
    classify, decide_relaxation, resubmit.
  keeps; try apply keeps_quality; try apply keeps_final_static.
Qed.

Lemma loop_keeps_job (obs : list Obs) :
  forall (irun score : Z) (st : state),
    same_job (self st) (self (final_state (loop obs irun score st))).
Proof.
  induction obs as [|o rest IH]; intros irun score st; simpl.
  - apply same_job_refl.
  - pose proof (keeps_loop_body o irun score st) as Hb.
    destruct (loop_body o irun score st) as [[i s|] st1|e st1]; simpl in *;
      try exact Hb.
    eapply same_job_trans; [exact Hb | apply IH].
Qed.

Lemma run_keeps_job (r : Relaxator) (obs : list Obs) :
  same_job r (self (final_state (run r obs))).
Proof.
  unfold run.
  match goal with |- context [first_run ?s] => pose proof (keeps_first_run s) as Hf end.
  destruct (first_run _) as [[] st1|e st1]; simpl in *; [|exact Hf].
  eapply same_job_trans; [exact Hf | apply loop_keeps_job].
Qed.

(** While the process is alive the loop only logs and sleeps. *)
Lemma loop_while_running (waits : list Obs) :
  forall (rest : list Obs) (irun score : Z) (st : state),
    Forall (fun o => poll o = None) waits ->
    exists st',
      loop (waits ++ rest) irun score st = loop rest irun score st' /\
      self st' = self st /\ dftb st' = dftb st.
Proof.
  induction waits as [|o waits IH]; intros rest irun score st Hall.
  - exists st. by simpl.
  - apply Forall_cons in Hall as [Ho Hall]. simpl.
    rewrite (loop_body_running o irun score st Ho).
    match goal with
    | |- context [loop _ _ _ ?x] =>
        destruct (IH rest irun score x Hall) as (st' & Hl & Hs & Hd)
    end.
    exists st'. by rewrite Hl, Hs, Hd.
Qed.

(** *** The claims about the loop *)

(** C1, as the code has it: at an evaluation that goes on to resubmit the
    run (the calls of lines 67 and 75 return and the score is below 20),
    the driver option [ConvergentForcesOnly] of the resubmitted run is
    false if and only if the forces or the stress are absent from
    [detailed.out] (one absent tensor is enough), and true if and only if
    both are there. *)
Theorem convergent_forces_only_iff_both_present
    (o : Obs) (irun score sc rc : Z) (st stq : state)
    (forces stress : option Tensor) (energy : option float) :
  runner (dftb st) = true ->
  poll o = Some rc ->
  path_exists (now o) (detailed_out st) = true ->
  read_detailed_out (now o) (detailed_out st) = (forces, stress, energy) ->
  reported (target_forces (self st)) forces = true ->
  reported (target_forces (self st)) stress = true ->
  quality (now o) score st = Done sc stq ->
  sc < 20 ->
  exists st',
    loop_body o irun score st = Done (Next (irun + 1) sc) st' /\
    (driver (dftb st') !! "ConvergentForcesOnly" = Some (PBool false) <->
     forces = None \/ stress = None) /\
    (driver (dftb st') !! "ConvergentForcesOnly" = Some (PBool true) <->
     is_Some forces /\ is_Some stress) /\
    exists pre,
      trace st' =
        trace st ++ pre ++
        [ESetInputs (dftb_structure (dftb st')) (driver (dftb st'))
           (hamiltonian (dftb st')) (options (dftb st'));
         ERun] ++ (if waiting (self st) then [EWait] else []).
Proof.
  intros Hr Hp He Hd Hrf Hrs Hq Hlt.
  destruct (loop_body_relax o irun score sc rc st stq forces stress energy
              Hr Hp He Hd Hrf Hrs Hq Hlt)
    as (st' & Hb & _ & _ & _ & _ & Hc & _ & pre & Ht & _).
  exists st'. split; [exact Hb|]. rewrite Hc.
  split_and!.
  - destruct forces, stress; simpl; split;
      try (intros [?|?]); try intros ?; try discriminate; try done; eauto.
  - destruct forces, stress; simpl; split;
      try (intros [[? ?] [? ?]]); try intros ?; try discriminate; try done;
      eauto.
  - exists (pre ++ [EGetGeometry; ERollOutputs irun]).
    rewrite Ht, <- !app_assoc. reflexivity.
Qed.

(** C2, as the code has it: at an evaluation that reaches the scorer (the
    calls of lines 67 and 75 return), the final static calculation is
    started if and only if the score just computed is at least 20, and it
    ends the loop; below 20 the run is resubmitted and the loop goes on
    with one more iteration, whether a branch of the relaxation decision
    is taken or not: the branch that relaxes the cell is taken exactly
    when the forces are good, the branch that keeps the cell exactly when
    the stress is good and the forces are not, and none when neither is
    good. *)
Theorem final_static_iff_score_at_least_20
    (o : Obs) (irun score sc rc : Z) (st stq : state)
    (forces stress : option Tensor) (energy : option float) :
  runner (dftb st) = true ->
  poll o = Some rc ->
  path_exists (now o) (detailed_out st) = true ->
  read_detailed_out (now o) (detailed_out st) = (forces, stress, energy) ->
  reported (target_forces (self st)) forces = true ->
  reported (target_forces (self st)) stress = true ->
  quality (now o) score st = Done sc stq ->
  exists fl st' new,
    loop_body o irun score st = Done fl st' /\
    trace st' = trace st ++ new /\
    (20 <= sc <-> final_static_message ∈ new) /\
    (20 <= sc <-> fl = Break) /\
    (sc < 20 <-> fl = Next (irun + 1) sc) /\
    (sc < 20 ->
     (exists pre,
        new = pre ++ [ERun] ++ (if waiting (self st) then [EWait] else [])) /\
     (cell_message ∈ new <->
      is_good (target_forces (self st)) forces = true) /\
     (internals_message ∈ new <->
      is_good (target_forces (self st)) forces = false /\
      is_good (target_forces (self st)) stress = true)).
Proof.
  intros Hr Hp He Hd Hrf Hrs Hq.
  destruct (Z.lt_ge_cases sc 20) as [Hlt|Hge].
  - destruct (loop_body_relax o irun score sc rc st stq forces stress energy
                Hr Hp He Hd Hrf Hrs Hq Hlt)
      as (st' & Hb & _ & _ & _ & _ & _ & _ & pre & Ht & Hpre & Hcell & Hint).
    assert (Hmsg : forall m args,
              ELog Debug m args ∈
                pre ++
                [EGetGeometry; ERollOutputs irun;
                 ESetInputs (dftb_structure (dftb st')) (driver (dftb st'))
                   (hamiltonian (dftb st')) (options (dftb st'));
                 ERun] ++ (if waiting (self st) then [EWait] else []) <->
              ELog Debug m args ∈ pre).
    { intros m args. rewrite elem_of_app. split; [|by left].
      intros [Hin|Hin]; [done|]. exfalso. revert Hin.
      destruct (waiting (self st)); not_in_list. }
    eexists _, st', _. split; [exact Hb|]. split; [exact Ht|].
    split; [|split; [|split; [|intros _; split; [|split]]]].
    + split; [lia|]. intros Hin. exfalso.
      apply Hmsg in Hin. by apply Hpre.
    + split; [lia | discriminate].
    + split; [done | intros _; exact Hlt].
    + eexists (pre ++ [_; _; _]). by rewrite <- !app_assoc.
    + unfold cell_message. by rewrite Hmsg.
    + unfold internals_message. by rewrite Hmsg.
  - destruct (loop_body_final o irun score sc rc st stq forces stress energy
                Hr Hp He Hd Hrf Hrs Hq Hge)
      as (st' & Hb & _ & pre & post & Ht & _).
    eexists _, st', _. split; [exact Hb|]. split; [exact Ht|].
    split; [|split; [|split]].
    + split; [|done]. intros _.
      apply elem_of_app. right. apply elem_of_cons. by left.
    + done.
    + split; [lia | discriminate].
    + lia.
Qed.

(** C5, as the code has it: at an evaluation that reaches the scorer (the
    calls of lines 67 and 75 return) with a score below 20, the final
    geometry is read, symmetrized and adopted, the outputs are archived,
    the counter goes up by one and the run is resubmitted in all four
    cases of the decision, also when no branch matches.  In that fourth
    case the driver is what it was, but for [ConvergentForcesOnly], set
    before the decision; the Hamiltonian and the options are what they
    were in every case. *)
Theorem resubmission_in_all_four_cases
    (o : Obs) (irun score sc rc : Z) (st stq : state)
    (forces stress : option Tensor) (energy : option float) :
  runner (dftb st) = true ->
  poll o = Some rc ->
  path_exists (now o) (detailed_out st) = true ->
  read_detailed_out (now o) (detailed_out st) = (forces, stress, energy) ->
  reported (target_forces (self st)) forces = true ->
  reported (target_forces (self st)) stress = true ->
  quality (now o) score st = Done sc stq ->
  sc < 20 ->
  exists st',
    loop_body o irun score st = Done (Next (irun + 1) sc) st' /\
    structure (self st') =
      symmetrize (read_geometry_gen (now o) (geo_end st)) /\
    dftb_structure (dftb st') = structure (self st') /\
    hamiltonian (dftb st') = hamiltonian (dftb st) /\
    options (dftb st') = options (dftb st) /\
    (exists pre,
       trace st' =
         trace st ++ pre ++
         [EGetGeometry; ERollOutputs irun;
          ESetInputs (dftb_structure (dftb st')) (driver (dftb st'))
            (hamiltonian (dftb st')) (options (dftb st'));
          ERun] ++ (if waiting (self st) then [EWait] else [])) /\
    (is_good (target_forces (self st)) forces = false ->
     is_good (target_forces (self st)) stress = false ->
     driver (dftb st') =
       <["ConvergentForcesOnly" := PBool (both_present forces stress)]>
         (driver (dftb st))).
Proof.
  intros Hr Hp He Hd Hrf Hrs Hq Hlt.
  destruct (loop_body_relax o irun score sc rc st stq forces stress energy
              Hr Hp He Hd Hrf Hrs Hq Hlt)
    as (st' & Hb & Hs & Hds & Hh & Ho & _ & H4 & pre & Ht & _).
  exists st'. split; [exact Hb|].
  split; [by rewrite Hs|]. split; [by rewrite Hs, Hds|].
  split; [exact Hh|]. split; [exact Ho|].
  split; [by exists pre | exact H4].
Qed.

(** C8: if [detailed.out] is missing when the process of the first run has
    exited, however long it was polled alive before, the loop is left at
    once with the error logged last, nothing is resubmitted, and the job
    is the one the constructor built: its current structure is its initial
    structure, a copy being equal to its original. *)
Theorem missing_detailed_out_ends_run
    (wd : string) (s : Structure) (sk : string) (target : float) (wt : bool)
    (waits : list Obs) (o : Obs) (rest : list Obs) (rc : Z) :
  (forall x : Structure, copy x = x) ->
  Forall (fun w => poll w = None) waits ->
  poll o = Some rc ->
  path_exists (now o) (wd +:+ os_sep +:+ "detailed.out") = false ->
  exists st,
    run (Relaxator_init wd s sk target wt) (waits ++ o :: rest) = Finished st /\
    self st = Relaxator_init wd s sk target wt /\
    structure (self st) = initial_structure (self st) /\
    initial_structure (self st) = symmetrize s /\
    exists pre,
      trace st =
        pre ++
        [ELog Info "Execution completed. Return code %d" [PInt rc];
         ELog Error ("Could not find " +:+ wd +:+ os_sep +:+ "detailed.out") []].
Proof.
  intros Hcopy Hwaits Hp He. unfold run.
  match goal with
  | |- context [first_run ?x] =>
      destruct (first_run_done x) as (st1 & -> & Hs1 & Hw1 & Hr1)
  end.
  simpl in Hs1, Hw1.
  destruct (loop_while_running waits (o :: rest) 0 0 st1 Hwaits)
    as (st2 & -> & Hs2 & Hd2).
  simpl.
  assert (Hpath : detailed_out st2 = wd +:+ os_sep +:+ "detailed.out")
    by (unfold detailed_out; by rewrite Hd2, Hw1).
  rewrite (loop_body_missing o 0 0 rc st2); [|by rewrite Hd2|done|by rewrite Hpath].
  eexists. split; [reflexivity|]. simpl. rewrite Hs2, Hs1.
  split; [reflexivity|]. split; [apply Hcopy|]. split; [reflexivity|].
  exists (trace st2). rewrite Hpath. by rewrite <- app_assoc.
Qed.

(** C10: the constructor stores the symmetrized structure as the initial
    structure and a copy of it as the current structure; whatever the
    outside world answers and however [run] ends, the work directory, the
    initial structure, the Slater-Koster path, the target forces and the
    waiting flag of the job are what the constructor made them. *)
Theorem run_changes_only_current_structure
    (wd : string) (s : Structure) (sk : string) (target : float) (wt : bool) :
  let job := Relaxator_init wd s sk target wt in
  initial_structure job = symmetrize s /\
  structure job = copy (symmetrize s) /\
  workdir job = wd /\ slater_path job = sk /\
  target_forces job = target /\ waiting job = wt /\
  forall (r : Relaxator) (obs : list Obs),
    let job' := self (final_state (run r obs)) in
    workdir job' = workdir r /\
    initial_structure job' = initial_structure r /\
    slater_path job' = slater_path r /\
    target_forces job' = target_forces r /\
    waiting job' = waiting r.
Proof.
  simpl. repeat (split; [reflexivity|]).
  intros r obs.
  destruct (run_keeps_job r obs) as (? & ? & ? & ? & ?).
  by repeat split.
Qed.

End RunFacts.

(** ** The claims on the sample job *)

(** The three progress logs of the sample job can be read. *)
Lemma sample_log_readable (w : World) :
  (w = scenario_a \/ w = stopped_early \/ w = converged) ->
  readable_log w sample_state.
Proof.
  intros [-> | [-> | ->]]; (split; [by eexists|]);
    split; intros l Hl; vm_compute in Hl; by simplify_eq.
Defined.

(** The converged run: 5e-4 and 2e-4 are below 1e-3, the score goes from 0
    to 101. *)
Lemma quality_bonus_iff_both_below_target_witness :
  quality converged 0 sample_state = Done 101 (logged bonus_message sample_state).
Proof.
  refine (proj1 (quality_bonus_iff_both_below_target converged 0 sample_state
                   true [0.02%float; 0.0005%float] [0.03%float; 0.0002%float]
                   0.0005%float 0.0002%float _ _ _ _ _) _ _);
    vm_compute; reflexivity.
Defined.

(** A run without any history takes the score from 5 to 6. *)
Lemma quality_early_exit_adds_one_witness :
  quality stopped_early 5 sample_state = Done 6 sample_state.
Proof.
  apply (quality_early_exit_adds_one stopped_early 5 sample_state).
  - by eexists.
  - vm_compute; reflexivity.
Defined.

(** Against C4 as it is written: without a max-force entry and from a
    score of 0 the scorer returns 1, not 0. *)
Lemma quality_early_exit_not_unchanged :
  geom_optimization stopped_early sample_state !! "max_force" = None /\
  quality stopped_early 0 sample_state = Done 1 sample_state /\
  forall st', quality stopped_early 0 sample_state <> Done 0 st'.
Proof.
  assert (Hq : quality stopped_early 0 sample_state = Done 1 sample_state).
  { apply (quality_no_max_force stopped_early 0 sample_state false);
      vm_compute; reflexivity. }
  split; [vm_compute; reflexivity|]. split; [exact Hq|].
  intros st'. rewrite Hq. intros Heq. by simplify_eq.
Qed.

(** The converged run from a score of 7. *)
Lemma quality_increases_witness :
  exists r st',
    quality converged 7 sample_state = Done r st' /\ 7 <= r /\ 7 + 1 <= r.
Proof.
  apply (proj2 (quality_increases converged 7 sample_state)).
  apply sample_log_readable. auto.
Defined.

(** Scenario A itself. *)
Lemma quality_scenario_a_witness :
  quality scenario_a 0 sample_state = Done 1 sample_state.
Proof.
  apply (quality_scenario_a scenario_a sample_state true
           [0.02%float] [0.03%float]); vm_compute; reflexivity.
Defined.

(** Against C7 as it is written: in scenario A the scorer does not return
    101. *)
Lemma quality_scenario_a_not_101 :
  target_forces (self sample_state) = 0.001%float /\
  geom_optimization scenario_a sample_state !! "max_force" =
    Some [0.02%float; 0.005%float] /\
  geom_optimization scenario_a sample_state !! "max_lattice_force" =
    Some [0.03%float; 0.005%float] /\
  forall st', quality scenario_a 0 sample_state <> Done 101 st'.
Proof.
  repeat (split; [vm_compute; reflexivity|]).
  assert (Hq : quality scenario_a 0 sample_state = Done 1 sample_state).
  { rewrite (quality_both scenario_a 0 sample_state true
               [0.02%float; 0.005%float] [0.03%float; 0.005%float]
               0.005%float 0.005%float); vm_compute; reflexivity. }
  intros st'. rewrite Hq. intros Heq. by simplify_eq.
Qed.

(** Scenario A from a score of 3, and twenty runs without a history: the
    twentieth takes the score from 19 to 20. *)
Lemma quality_adds_1_or_101_witness :
  (exists r st',
     quality scenario_a 3 sample_state = Done r st' /\
     (r - 3 = 1 \/ r - 3 = 101)) /\
  ((20 = 19 + 101 /\ 19 = Z.of_nat (length (replicate 19 stopped_early))) \/
   (20 = 20 /\ length (replicate 19 stopped_early) = 19%nat)).
Proof.
  split.
  - apply (proj1 (quality_adds_1_or_101 scenario_a 3 sample_state
                    [0.02%float; 0.005%float])).
    + vm_compute; reflexivity.
    + apply sample_log_readable. auto.
  - apply (proj2 (quality_adds_1_or_101 stopped_early 0 sample_state [])
             (replicate 19 stopped_early) sample_state sample_state
             sample_state 19 20).
    + vm_compute; reflexivity.
    + lia.
    + apply (quality_no_max_force stopped_early 19 sample_state false);
        vm_compute; reflexivity.
    + lia.
Defined.

(** The score of the two runs that stop before the first geometry step. *)
Lemma sample_quality_stopped_early (score : Z) :
  quality stopped_early score sample_state = Done (score + 1) sample_state.
Proof.
  apply (quality_no_max_force stopped_early score sample_state false);
    vm_compute; reflexivity.
Defined.

Lemma sample_quality_forces_only (score : Z) :
  quality forces_only score sample_state = Done (score + 1) sample_state.
Proof.
  apply (quality_no_max_force forces_only score sample_state false);
    vm_compute; reflexivity.
Defined.

(** The first evaluation of a run that left forces and no stress. *)
Lemma convergent_forces_only_iff_both_present_witness :
  exists st',
    loop_body (sample_obs (Some 0) forces_only) 0 0 sample_state =
      Done (Next (0 + 1) (0 + 1)) st' /\
    (driver (dftb st') !! "ConvergentForcesOnly" = Some (PBool false) <->
     Some [0.001%float; (-0.002)%float] = None \/ @None (list float) = None) /\
    (driver (dftb st') !! "ConvergentForcesOnly" = Some (PBool true) <->
     is_Some (Some [0.001%float; (-0.002)%float]) /\ is_Some (@None (list float))) /\
    exists pre,
      trace st' =
        trace sample_state ++ pre ++
        [ESetInputs (dftb_structure (dftb st')) (driver (dftb st'))
           (hamiltonian (dftb st')) (options (dftb st'));
         ERun] ++ (if waiting (self sample_state) then [EWait] else []).
Proof.
  apply (convergent_forces_only_iff_both_present
           (sample_obs (Some 0) forces_only) 0 0 (0 + 1) 0
           sample_state sample_state
           (Some [0.001%float; (-0.002)%float]) None None).
  - vm_compute; reflexivity.
  - reflexivity.
  - reflexivity.
  - reflexivity.
  - vm_compute; reflexivity.
  - vm_compute; reflexivity.
  - apply sample_quality_forces_only.
  - vm_compute; reflexivity.
Defined.

(** Against C1 as it is written: the forces are there (and good), the
    stress is not, and the resubmitted run has [ConvergentForcesOnly] set
    to false. *)
Lemma convergent_forces_only_false_with_forces_present :
  read_detailed_out forces_only (detailed_out sample_state) =
    (Some [0.001%float; (-0.002)%float], None, None) /\
  is_good (target_forces (self sample_state))
    (Some [0.001%float; (-0.002)%float]) = true /\
  exists st',
    loop_body (sample_obs (Some 0) forces_only) 0 0 sample_state =
      Done (Next 1 1) st' /\
    driver (dftb st') !! "ConvergentForcesOnly" = Some (PBool false).
Proof.
  split; [reflexivity|]. split; [vm_compute; reflexivity|].
  destruct (loop_body_relax (sample_obs (Some 0) forces_only) 0 0 (0 + 1) 0
              sample_state sample_state
              (Some [0.001%float; (-0.002)%float]) None None)
    as (st' & Hb & _ & _ & _ & _ & Hc & _);
    try reflexivity; try (vm_compute; reflexivity).
  exists st'. split; [exact Hb | exact Hc].
Qed.

Lemma sample_quality_rough (score : Z) :
  quality rough score sample_state = Done (score + 1) sample_state.
Proof.
  apply (quality_no_max_force rough score sample_state false);
    vm_compute; reflexivity.
Defined.

(** The first evaluation of the converged run: the score is 101. *)
Lemma final_static_iff_score_at_least_20_witness :
  exists fl st' new,
    loop_body (sample_obs (Some 0) converged) 0 0 sample_state = Done fl st' /\
    trace st' = trace sample_state ++ new /\
    (20 <= 101 <-> final_static_message ∈ new) /\
    (20 <= 101 <-> fl = Break) /\
    (101 < 20 <-> fl = Next (0 + 1) 101) /\
    (101 < 20 ->
     (exists pre,
        new = pre ++ [ERun] ++
              (if waiting (self sample_state) then [EWait] else [])) /\
     (cell_message ∈ new <->
      is_good (target_forces (self sample_state)) (Some [0.0001%float]) = true) /\
     (internals_message ∈ new <->
      is_good (target_forces (self sample_state)) (Some [0.0001%float]) = false /\
      is_good (target_forces (self sample_state)) (Some [0.0002%float]) = true)).
Proof.
  apply (final_static_iff_score_at_least_20
           (sample_obs (Some 0) converged) 0 0 101 0 sample_state
           (logged bonus_message sample_state)
           (Some [0.0001%float]) (Some [0.0002%float]) (Some (-10)%float)).
  - vm_compute; reflexivity.
  - reflexivity.
  - reflexivity.
  - reflexivity.
  - vm_compute; reflexivity.
  - vm_compute; reflexivity.
  - change (quality converged 0 sample_state =
            Done 101 (logged bonus_message sample_state)).
    rewrite (quality_both converged 0 sample_state true
               [0.02%float; 0.0005%float] [0.03%float; 0.0002%float]
               0.0005%float 0.0002%float); vm_compute; reflexivity.
Defined.

(** Against C2 as it is written: forces and stress are there and neither
    is good, the score is 1, and the run is resubmitted without a branch
    of the relaxation decision being taken: neither message of the
    decision is logged and the driver is what it was, but for
    [ConvergentForcesOnly]. *)
Lemma score_below_20_without_decision_branch :
  read_detailed_out rough (detailed_out sample_state) =
    (Some [7%float], Some [3%float], None) /\
  quality rough 0 sample_state = Done 1 sample_state /\
  exists st' new,
    loop_body (sample_obs (Some 0) rough) 0 0 sample_state =
      Done (Next 1 1) st' /\
    trace st' = trace sample_state ++ new /\
    (cell_message ∉ new) /\ (internals_message ∉ new) /\
    driver (dftb st') =
      <["ConvergentForcesOnly" := PBool true]> (driver (dftb sample_state)) /\
    last new = Some ERun.
Proof.
  split; [reflexivity|]. split; [apply (sample_quality_rough 0)|].
  destruct (loop_body_relax (sample_obs (Some 0) rough) 0 0 (0 + 1) 0
              sample_state sample_state (Some [7%float]) (Some [3%float]) None)
    as (st' & Hb & _ & _ & _ & _ & _ & H4 & pre & Ht & _ & Hcell & Hint);
    try reflexivity; try (vm_compute; reflexivity).
  exists st'. eexists. split; [exact Hb|]. split; [exact Ht|].
  replace (waiting (self sample_state)) with false by reflexivity.
  split_and!.
  - rewrite !elem_of_app, !elem_of_cons, elem_of_nil.
    intros [Hin|[[Hin|[Hin|[Hin|[Hin|[]]]]]|[]]]; try discriminate Hin.
    apply Hcell in Hin. vm_compute in Hin. discriminate Hin.
  - rewrite !elem_of_app, !elem_of_cons, elem_of_nil.
    intros [Hin|[[Hin|[Hin|[Hin|[Hin|[]]]]]|[]]]; try discriminate Hin.
    apply Hint in Hin as [_ Hin]. vm_compute in Hin. discriminate Hin.
  - apply H4; vm_compute; reflexivity.
  - rewrite app_nil_r, !last_app. reflexivity.
Qed.

(** The first evaluation of a run whose forces and stress are there and
    neither good: both are logged by lines 67 and 75, no branch matches. *)
Lemma resubmission_in_all_four_cases_witness :
  exists st',
    loop_body (sample_obs (Some 0) rough) 0 0 sample_state =
      Done (Next (0 + 1) (0 + 1)) st' /\
    structure (self st') =
      symmetrize (read_geometry_gen rough (geo_end sample_state)) /\
    dftb_structure (dftb st') = structure (self st') /\
    hamiltonian (dftb st') = hamiltonian (dftb sample_state) /\
    options (dftb st') = options (dftb sample_state) /\
    (exists pre,
       trace st' =
         trace sample_state ++ pre ++
         [EGetGeometry; ERollOutputs 0;
          ESetInputs (dftb_structure (dftb st')) (driver (dftb st'))
            (hamiltonian (dftb st')) (options (dftb st'));
          ERun] ++ (if waiting (self sample_state) then [EWait] else [])) /\
    (is_good (target_forces (self sample_state)) (Some [7%float]) = false ->
     is_good (target_forces (self sample_state)) (Some [3%float]) = false ->
     driver (dftb st') =
       <["ConvergentForcesOnly" :=
           PBool (both_present (Some [7%float]) (Some [3%float]))]>
         (driver (dftb sample_state))).
Proof.
  apply (resubmission_in_all_four_cases
           (sample_obs (Some 0) rough) 0 0 (0 + 1) 0
           sample_state sample_state (Some [7%float]) (Some [3%float]) None).
  - vm_compute; reflexivity.
  - reflexivity.
  - reflexivity.
  - reflexivity.
  - vm_compute; reflexivity.
  - vm_compute; reflexivity.
  - apply sample_quality_rough.
  - vm_compute; reflexivity.
Defined.

(** Against C5 as it is written: neither forces nor stress are good, no
    branch of the decision matches, and still the geometry is adopted, the
    outputs are archived under index 0 and the run is resubmitted. *)
Lemma resubmission_without_matching_branch :
  read_detailed_out stopped_early (detailed_out sample_state) =
    (None, None, None) /\
  is_good (target_forces (self sample_state)) None = false /\
  exists st',
    loop_body (sample_obs (Some 0) stopped_early) 0 0 sample_state =
      Done (Next 1 1) st' /\
    structure (self st') = "Si2-relaxed"%string /\
    ERollOutputs 0 ∈ trace st' /\
    last (trace st') = Some ERun.
Proof.
  split; [reflexivity|]. split; [reflexivity|].
  destruct (loop_body_relax (sample_obs (Some 0) stopped_early) 0 0 (0 + 1) 0
              sample_state sample_state None None None)
    as (st' & Hb & Hs & _ & _ & _ & _ & _ & pre & Ht & _);
    try reflexivity; try (vm_compute; reflexivity).
  exists st'. split; [exact Hb|]. split; [by rewrite Hs|].
  rewrite Ht. split.
  - rewrite !elem_of_app. right. right. left.
    apply elem_of_cons. right. apply elem_of_cons. by left.
  - replace (waiting (self sample_state)) with false by reflexivity.
    rewrite app_nil_r, !last_app. reflexivity.
Qed.

(** Two polls of the living process, then its exit with code 1 and no
    [detailed.out]; the observation that follows is never looked at. *)
Lemma missing_detailed_out_ends_run_witness :
  exists st,
    run sample_job
      ([sample_obs None stopped_early; sample_obs None stopped_early] ++
       sample_obs (Some 1) no_detailed_out :: [sample_obs (Some 0) converged]) =
      Finished st /\
    self st = sample_job /\
    structure (self st) = initial_structure (self st) /\
    initial_structure (self st) = @symmetrize sample_external "Si2"%string /\
    exists pre,
      trace st =
        pre ++
        [ELog Info "Execution completed. Return code %d" [PInt 1];
         ELog Error
           ("Could not find " +:+ "/scratch/job" +:+ os_sep +:+ "detailed.out")
           []].
Proof.
  apply (missing_detailed_out_ends_run (H := sample_external)
           "/scratch/job" "Si2"%string "/opt/slako"
           default_target_forces false
           [sample_obs None stopped_early; sample_obs None stopped_early]
           (sample_obs (Some 1) no_detailed_out)
           [sample_obs (Some 0) converged] 1).
  - intros x. reflexivity.
  - repeat constructor.
  - reflexivity.
  - reflexivity.
Defined.


(** * The whole loop *)

Section LoopFacts.

Context {ext : External} {adp : Adapter}.

Ltac norm :=
  cbv [bind ret lift set_self set_dftb get_self get_dftb emit log when
       driver_set hamiltonian_set options_set
       dftb_set_inputs dftb_run runner_wait dftb_run_status dftb_get_geometry
       dftb_roll_outputs time_sleep];
  simpl.

(* The trace of a state written out, as the trace before followed by what
   was added. *)
Ltac name_trace HT :=
  lazymatch goal with
  | |- context [Done _ ?x] =>
      let T := fresh "T" in
      remember (trace x) as T eqn:HT;
      simpl in HT; rewrite <- ?app_assoc in HT; simpl in HT
  end.

Lemma archived_app (a b : list event) : archived (a ++ b) = archived a ++ archived b.
Proof. unfold archived. apply omap_app. Qed.

Lemma submitted_app (a b : list event) :
  submitted (a ++ b) = (submitted a + submitted b)%nat.
Proof. unfold submitted. by rewrite omap_app, length_app. Qed.

Lemma inputs_written_app (a b : list event) :
  inputs_written (a ++ b) = inputs_written a ++ inputs_written b.
Proof. unfold inputs_written. apply omap_app. Qed.

Lemma polls_archive_nothing (n : nat) :
  archived (concat (replicate n [ERunStatus; ESleep 10])) = [] /\
  submitted (concat (replicate n [ERunStatus; ESleep 10])) = 0%nat /\
  inputs_written (concat (replicate n [ERunStatus; ESleep 10])) = [].
Proof. induction n as [|n IH]; [done|]. simpl. exact IH. Qed.

Lemma sleeps_archive_nothing (n : nat) :
  archived (replicate n (ESleep 10)) = [] /\
  submitted (replicate n (ESleep 10)) = 0%nat /\
  inputs_written (replicate n (ESleep 10)) = [].
Proof. induction n as [|n IH]; [done|]. simpl. exact IH. Qed.

(** The final static calculation, executed to its end. *)
Lemma final_static_exec (o : Obs) (irun : Z) (st : state) :
  exists st' tail,
    final_static o irun st = Done Break st' /\
    self st' = with_current (symmetrize (final_geometry (now o) st)) (self st) /\
    dftb_structure (dftb st') = symmetrize (final_geometry (now o) st) /\
    dftb_workdir (dftb st') = dftb_workdir (dftb st) /\
    runner (dftb st') = true /\
    trace st' =
      trace st ++
      [final_static_message; EGetGeometry; ERollOutputs irun;
       ESetInputs (symmetrize (final_geometry (now o) st)) ∅
         (hamiltonian (dftb st))
         (<["CalculateForces" := PBool true]> (options (dftb st)));
       ERun] ++
      (if waiting (self st) then [EWait] else []) ++
      concat (replicate (static_polls o) [ERunStatus; ESleep 10]) ++
      [ELog Debug "I am alive!!!" []] ++ tail /\
    (complete (read_detailed_out (after_static o) (detailed_out st)) = true ->
     tail = [] /\ driver (dftb st') = ∅) /\
    (complete (read_detailed_out (after_static o) (detailed_out st)) = false ->
     exists d h op,
       tail =
         [ELog Debug "Avoiding a static run relaxing and exiting" [];
          EPrintDriver d;
          ESetInputs (symmetrize (final_geometry (now o) st)) d h op;
          ERun] ++
         (if waiting (self st) then [EWait] else []) ++
         replicate (fallback_polls o) (ESleep 10) ++
         [EPrintFinal (read_detailed_out (after_fallback o) (detailed_out st))] /\
       driver (dftb st') = d /\
       d !! "LatticeOpt" = Some (PBool false) /\
       d !! "MaxForceComponent" =
         Some (PFloat (PrimFloat.mul 0.9%float (target_forces (self st)))) /\
       d !! "ConvergentForcesOnly" = Some (PBool false) /\
       d !! "MaxSteps" = Some (PInt 10) /\
       h !! "MaxSCCIterations" = Some (PInt 50)).
Proof.
  unfold final_static, get_final_geometry, final_geometry, detailed_out. norm.
  destruct (path_isfile (now o) _); norm.
  all: destruct (waiting (self st)) eqn:Hw; norm.
  all: rewrite (times_status (H:=ext)); norm.
  all: destruct (read_detailed_out (after_static o) _) as [[fo so] eo].
  all: destruct so, fo, eo; norm.
  all: unfold fallback; norm; rewrite ?Hw; norm.
  all: rewrite ?(times_sleep (H:=ext)); norm.
  all: lazymatch goal with
       | |- exists st' tail, Done Break ?x = _ /\ _ => exists x
       end.
  all: name_trace HT.
  all: rewrite ?(basic_input_structure (H:=ext)) in HT; simpl in HT.
  all: eexists; split; [reflexivity|]; simpl.
  all: rewrite ?(basic_input_structure (H:=ext)),
         ?(basic_input_workdir (H:=ext)); simpl.
  all: split; [reflexivity|].
  all: split; [reflexivity|].
  all: split; [reflexivity|].
  all: split; [reflexivity|].
  all: split; [rewrite HT; reflexivity|].
  all: split; intros Hc; try discriminate Hc.
  all: try (split; reflexivity).
  all: eexists _, _, _; split; [reflexivity|]; split; [reflexivity|].
  all: repeat split;
       rewrite ?lookup_insert_ne by done; apply lookup_insert_eq.
Qed.

(** When the scorer raises, the state is what it was and the progress log
    was not readable. *)
Lemma quality_raised (w : World) (s : Z) (st st' : state) (e : exn) :
  quality w s st = Raised e st' ->
  st' = st /\ (e = KeyError "ion_convergence" \/ e = IndexError) /\
  ~ readable_log w st.
Proof.
  intros Hq.
  destruct (stats w st !! "ion_convergence") as [b|] eqn:Hs.
  2:{ revert Hq Hs. unfold readable_log, stats, stdout_log, quality.
      unfold bind, ret, lift, get_self, get_dftb, getitem.
      destruct (read_dftb_stdout w _) as [[bo geo] sts]; simpl.
      intros Hq Hs. rewrite Hs in Hq. simplify_eq.
      split; [done|]. split; [by left|]. intros [[? ?] _]. congruence. }
  destruct (geom_optimization w st !! "max_force") as [mf|] eqn:Hmf.
  2:{ by rewrite (quality_no_max_force w s st b Hs Hmf) in Hq. }
  destruct (last mf) as [f|] eqn:Hf.
  2:{ apply last_None in Hf. subst mf.
      revert Hq Hs Hmf. unfold readable_log, stats, geom_optimization, stdout_log, quality.
      unfold bind, ret, lift, get_self, get_dftb, getitem.
      destruct (read_dftb_stdout w _) as [[bo geo] sts]; simpl.
      intros Hq Hs Hmf. rewrite Hs, Hmf in Hq. simpl in Hq. simplify_eq.
      split; [done|]. split; [by right|]. intros (_ & Hne & _).
      by apply (Hne []). }
  destruct (geom_optimization w st !! "max_lattice_force") as [ml|] eqn:Hml.
  2:{ by rewrite (quality_no_lattice w s st b mf f Hs Hmf Hf Hml) in Hq. }
  destruct (last ml) as [l|] eqn:Hl.
  2:{ apply last_None in Hl. subst ml.
      revert Hq Hs Hmf Hml.
      unfold readable_log, stats, geom_optimization, stdout_log, quality.
      unfold bind, ret, lift, get_self, get_dftb, getitem.
      destruct (read_dftb_stdout w _) as [[bo geo] sts]; simpl.
      intros Hq Hs Hmf Hml. rewrite Hs, Hmf, Hml in Hq. unfold last_item in Hq.
      rewrite Hf in Hq. simpl in Hq. simplify_eq.
      split; [done|]. split; [by right|]. intros (_ & _ & Hne).
      by apply (Hne []). }
  rewrite (quality_both w s st b mf ml f l Hs Hmf Hf Hml Hl) in Hq.
  by destruct (flt f _ && flt l _).
Qed.

(** What the final static calculation adds to the trace: one archive under
    the current index and one or two submissions. *)
Lemma final_static_counts (o : Obs) (irun : Z) (st : state) :
  exists st' ev,
    final_static o irun st = Done Break st' /\
    trace st' = trace st ++ ev /\
    archived ev = [irun] /\
    (1 <= submitted ev <= 2)%nat /\
    (in_step st -> in_step st').
Proof.
  destruct (final_static_exec o irun st)
    as (st' & tail & Hf & Hself & Hds & Hwd & Hr & Ht & Hc & Hi).
  exists st'. eexists. split; [exact Hf|]. split; [exact Ht|].
  assert (Htail : archived tail = [] /\ (submitted tail <= 1)%nat).
  { destruct (complete _).
    - destruct Hc as [-> _]; [done|]. unfold submitted; simpl.
      split; [done | lia].
    - destruct Hi as (d & h & op & -> & _); [done|].
      rewrite !archived_app, !submitted_app.
      destruct (sleeps_archive_nothing (fallback_polls o)) as (-> & -> & _).
      destruct (waiting (self st)); unfold archived, submitted; simpl;
        split; done || lia. }
  destruct Htail as [Ha Hs].
  rewrite !archived_app, !submitted_app, Ha.
  destruct (polls_archive_nothing (static_polls o)) as (-> & -> & _).
  split; [|split].
  - by destruct (waiting (self st)).
  - destruct (waiting (self st)); unfold submitted in *; simpl; lia.
  - intros (_ & Hw & _). unfold in_step. rewrite Hself, Hds, Hwd, Hr. by simpl.
Qed.

(* The two ways an evaluation ends, in the proof of [loop_body_turn]. *)
Ltac turn_final :=
  lazymatch goal with
  | |- context [final_static ?o' ?i ?x] =>
      let st' := fresh "st'" in
      let ev := fresh "ev" in
      let Ht := fresh "Ht" in
      let Ha := fresh "Ha" in
      let Hs := fresh "Hs" in
      let Hin := fresh "Hin" in
      destruct (final_static_counts o' i x)
        as (st' & ev & -> & Ht & Ha & Hs & Hin);
      simpl; rewrite Ht; simpl; rewrite <- !app_assoc; simpl;
      eexists; split; [reflexivity|];
      split; [exact Hin|];
      right; unfold archived, submitted in *; simpl;
      split; [exact Ha | exact Hs]
  end.

Ltac turn_relax st :=
  unfold resubmit; norm;
  destruct (waiting (self st)); norm;
  rewrite <- !app_assoc; simpl;
  (eexists; split; [reflexivity|]);
  (split; [intros (_ & ? & _); by repeat split|]);
  right; (split; [reflexivity|]); (split; [lia|]); by split.

(** One turn of the loop, whatever the outside world answers: what it adds
    to the trace and what it does to the two counters. *)
Lemma loop_body_turn (o : Obs) (irun score : Z) (st : state) :
  exists ev,
    trace (outcome_state (loop_body o irun score st)) = trace st ++ ev /\
    (in_step st -> in_step (outcome_state (loop_body o irun score st))) /\
    match loop_body o irun score st with
    | Done (Next i s) _ =>
        (i = irun /\ s = score /\ archived ev = [] /\ submitted ev = 0%nat) \/
        (i = irun + 1 /\ score < s < 20 /\
         archived ev = [irun] /\ submitted ev = 1%nat)
    | Done Break _ =>
        (archived ev = [] /\ submitted ev = 0%nat) \/
        (archived ev = [irun] /\ (1 <= submitted ev <= 2)%nat)
    | Raised e _ => archived ev = [] /\ submitted ev = 0%nat
    end.
Proof.
  set (R := loop_body o irun score st).
  assert (HR : R =
    match (if runner (dftb st) then poll o else None) with
    | Some rc =>
        bind (log Info "Execution completed. Return code %d" [PInt rc])
          (fun _ =>
             if negb (path_exists (now o) (detailed_out st))
             then bind (log Error ("Could not find " +:+ detailed_out st) [])
                    (fun _ => ret Break)
             else evaluate o (detailed_out st) irun score) st
    | None => still_running o irun score st
    end).
  { subst R. unfold loop_body, detailed_out. unfold bind at 1. unfold get_dftb.
    by destruct (if runner (dftb st) then poll o else None). }
  clearbody R.
  assert (Hpolling : R = still_running o irun score st ->
    exists ev,
      trace (outcome_state R) = trace st ++ ev /\
      (in_step st -> in_step (outcome_state R)) /\
      match R with
      | Done (Next i s) _ =>
          (i = irun /\ s = score /\ archived ev = [] /\ submitted ev = 0%nat) \/
          (i = irun + 1 /\ score < s < 20 /\
           archived ev = [irun] /\ submitted ev = 1%nat)
      | Done Break _ =>
          (archived ev = [] /\ submitted ev = 0%nat) \/
          (archived ev = [irun] /\ (1 <= submitted ev <= 2)%nat)
      | Raised e _ => archived ev = [] /\ submitted ev = 0%nat
      end).
  { intros ->. clear HR. unfold still_running. norm.
    destruct (path_exists (now o) _); simpl;
      rewrite <- !app_assoc; simpl;
      (eexists; split; [reflexivity|]; split; [done|]; left; by repeat split). }
  destruct (runner (dftb st)) eqn:Hr; [|by apply Hpolling].
  destruct (poll o) as [rc|] eqn:Hp; [|by apply Hpolling].
  clear Hpolling. subst R. unfold detailed_out. norm.
  destruct (path_exists (now o) _) eqn:He; simpl.
  2:{ rewrite <- !app_assoc; simpl.
      eexists; split; [reflexivity|]; split; [done|]; left; by repeat split. }
  unfold evaluate.
  destruct (read_detailed_out (now o) _) as [[forces stress] energy].
  unfold set_convergent_forces_only, classify, is_good.
  destruct forces as [f|], stress as [t|]; norm.
  all: repeat (match goal with
               | |- context [flt ?a ?b] => destruct (flt a b) eqn:?
               | |- context [max_abs_axis ?a ?b] =>
                   destruct (max_abs_axis a b) eqn:?
               end; norm).
  all: try (lazymatch goal with
            | |- context [quality _ _ _] => fail
            | _ => idtac
            end;
            rewrite <- ?app_assoc; simpl;
            eexists; split; [reflexivity|]; split; [done|]; by split).
  all: match goal with
       | |- context [quality ?w ?s ?x] =>
           destruct (quality w s x) as [sc stq|e stq] eqn:Hq
       end.
  all: try (apply quality_raised in Hq as (-> & _ & _); simpl;
            rewrite <- ?app_assoc; simpl;
            eexists; split; [reflexivity|]; split; [done|]; by split).
  all: apply quality_done in Hq as [[-> ->]|[-> ->]]; norm.
  all: match goal with
       | |- context [?a <? 20] => destruct (Z.ltb_spec a 20) as [Hlt|Hge]
       end.
  all: first [turn_final | turn_relax st].
Qed.

(** The first run, executed: inputs written once, one submission, nothing
    archived; the settings of lines 36-42 are written over the defaults of
    [basic_input]. *)
Lemma first_run_exec (st : state) :
  exists st1 d h op,
    first_run st = Done tt st1 /\
    self st1 = self st /\
    in_step st1 /\
    trace st1 =
      trace st ++ [ESetInputs (structure (self st)) d h op; ERun] ++
      (if waiting (self st) then [EWait] else []) /\
    driver (dftb st1) = d /\ hamiltonian (dftb st1) = h /\
    options (dftb st1) = op /\
    d !! "LatticeOpt" = Some (PBool false) /\
    d !! "MaxForceComponent" =
      Some (PFloat (PrimFloat.mul 0.9%float (target_forces (self st)))) /\
    d !! "ConvergentForcesOnly" = Some (PBool true) /\
    d !! "MaxSteps" = Some (PInt 50) /\
    h !! "MaxSCCIterations" = Some (PInt 50).
Proof.
  unfold first_run. norm.
  destruct (waiting (self st)); norm.
  all: lazymatch goal with
       | |- exists st1 d h op, Done tt ?x = _ /\ _ => exists x
       end.
  all: name_trace HT.
  all: rewrite ?(basic_input_structure (H:=ext)) in HT; simpl in HT.
  all: eexists _, _, _; split; [reflexivity|]; simpl.
  all: split; [reflexivity|].
  all: split;
       [unfold in_step; simpl;
        rewrite (basic_input_structure (H:=ext)),
          (basic_input_workdir (H:=ext)); by simpl|].
  all: split; [rewrite HT; reflexivity|].
  all: repeat (split; [reflexivity|]).
  all: repeat split; rewrite ?lookup_insert_ne by done; apply lookup_insert_eq.
Qed.

(** The loop from any turn on: the archives are numbered on from the
    counter, the counter never passes the score, and the score stays below
    20 as long as the loop goes on. *)
Lemma loop_counts (obs : list Obs) :
  forall (irun score : Z) (st : state),
    0 <= irun <= score -> score < 20 ->
    exists ev k,
      trace (final_state (loop obs irun score st)) = trace st ++ ev /\
      archived ev = seqZ irun k /\
      0 <= k /\ irun + k <= 20 /\
      (submitted ev <= Z.to_nat k + 1)%nat /\
      (in_step st -> in_step (final_state (loop obs irun score st))) /\
      (forall i s st', loop obs irun score st = Polling i s st' ->
         i = irun + k /\ i <= s < 20 /\ submitted ev = Z.to_nat k).
Proof.
  induction obs as [|o rest IH]; intros irun score st Hi Hs; simpl.
  - exists [], 0. rewrite app_nil_r, seqZ_nil by lia.
    split_and!; try done; try lia;
      try (unfold submitted; simpl; lia);
      try (intros i s st' Heq; simplify_eq; unfold submitted; simpl; lia).
  - destruct (loop_body_turn o irun score st) as (ev1 & Ht1 & Hin1 & Hcase).
    destruct (loop_body o irun score st) as [[i s|] st1|e st1]; simpl in *.
    + destruct Hcase as [(-> & -> & Ha & Hn)|(-> & Hsc & Ha & Hn)].
      * destruct (IH irun score st1 Hi Hs)
          as (ev2 & k & Ht2 & Ha2 & ? & ? & ? & Hin2 & Hp).
        exists (ev1 ++ ev2), k.
        rewrite Ht2, Ht1, <- app_assoc, archived_app, submitted_app, Ha, Hn.
        split_and!; try done; try lia; auto.
      * destruct (IH (irun + 1) s st1)
          as (ev2 & k & Ht2 & Ha2 & ? & ? & ? & Hin2 & Hp); [lia | lia |].
        exists (ev1 ++ ev2), (k + 1).
        rewrite Ht2, Ht1, <- app_assoc, archived_app, submitted_app, Ha, Hn, Ha2.
        split_and!; try done; try lia; auto.
        -- rewrite (seqZ_cons irun (k + 1)) by lia.
           simpl. do 2 f_equal; lia.
        -- intros i s' st' Heq. destruct (Hp i s' st' Heq) as (? & ? & ?).
           split_and!; lia.
    + destruct Hcase as [(Ha & Hn)|(Ha & Hn)].
      * exists ev1, 0. rewrite Ha, Hn, seqZ_nil by lia.
        split_and!; try done; lia.
      * exists ev1, 1. rewrite Ha.
        split_and!; try done; try lia.
    + destruct Hcase as (Ha & Hn).
      exists ev1, 0. rewrite Ha, Hn, seqZ_nil by lia.
      split_and!; try done; lia.
Qed.

(** The whole of [run]: archives, submissions, counters and the agreement
    of job and adapter, however it ends. *)
Lemma run_counts (r : Relaxator) (obs : list Obs) :
  exists k,
    archived (trace (final_state (run r obs))) = seqZ 0 k /\
    0 <= k <= 20 /\
    (1 <= submitted (trace (final_state (run r obs))) <= Z.to_nat k + 2)%nat /\
    in_step (final_state (run r obs)) /\
    (forall i s st, run r obs = Polling i s st ->
       i = k /\ i <= s < 20 /\
       submitted (trace st) = (Z.to_nat k + 1)%nat).
Proof.
  unfold run.
  match goal with
  | |- context [first_run ?x] =>
      destruct (first_run_exec x)
        as (st1 & d & h & op & -> & _ & Hin & Ht & _)
  end.
  simpl in Ht.
  destruct (loop_counts obs 0 0 st1) as (ev & k & Hl & Ha & ? & ? & Hn & Hstep & Hp);
    [lia | lia |].
  exists k. rewrite Hl, Ht, !archived_app, !submitted_app, Ha.
  assert (Hfirst :
    archived (ESetInputs (structure r) d h op :: ERun ::
              (if waiting r then [EWait] else [])) = [] /\
    submitted (ESetInputs (structure r) d h op :: ERun ::
               (if waiting r then [EWait] else [])) = 1%nat)
    by (by destruct (waiting r)).
  destruct Hfirst as [-> ->].
  split_and!; try done; try lia; auto.
  intros i s st Heq. destruct (Hp i s st Heq) as (? & ? & Hsub).
  split_and!; try lia.
  rewrite Heq in Hl. simpl in Hl.
  rewrite Hl, Ht, !submitted_app, Hsub.
  destruct (waiting r); unfold submitted; simpl; lia.
Qed.

(** X1: the outputs are archived under the indices 0, 1, 2, ... in this
    order, without gap or repetition, and while the loop is polling its
    counter [irun] is the number of archives made so far. *)
Theorem archives_are_numbered_from_zero (r : Relaxator) (obs : list Obs) :
  exists k,
    0 <= k /\
    archived (trace (final_state (run r obs))) = seqZ 0 k /\
    forall i s st, run r obs = Polling i s st -> i = k.
Proof.
  destruct (run_counts r obs) as (k & Ha & Hk & _ & _ & Hp).
  exists k. split_and!; [lia | exact Ha |].
  intros i s st Heq. by destruct (Hp i s st Heq).
Qed.

(** X2: whatever the outside world answers, [run] archives at most 20
    times and submits at least one and at most 22 runs (the first one, one
    per archive, and the short relaxation after an incomplete static
    result); as long as it polls, the counter is at most the score and the
    score is below 20. *)
Theorem run_is_bounded (r : Relaxator) (obs : list Obs) :
  (length (archived (trace (final_state (run r obs)))) <= 20)%nat /\
  (1 <= submitted (trace (final_state (run r obs))) <= 22)%nat /\
  (submitted (trace (final_state (run r obs))) <=
   length (archived (trace (final_state (run r obs)))) + 2)%nat /\
  forall i s st, run r obs = Polling i s st ->
    0 <= i <= s /\ s < 20 /\ submitted (trace st) = Z.to_nat (i + 1).
Proof.
  destruct (run_counts r obs) as (k & Ha & Hk & Hn & _ & Hp).
  rewrite Ha, length_seqZ.
  split_and!; try lia.
  intros i s st Heq. destruct (Hp i s st Heq) as (? & ? & ?).
  split_and!; lia.
Qed.

(** X3: when the process has exited and [detailed.out] holds a tensor that
    is not good, and [np.max] raises for ten times the target as its axis
    (line 67 for the forces, line 75 for the stress once the forces are
    through), the exception ends the loop at this turn: after
    [ConvergentForcesOnly] was set, before the scorer is asked, with
    nothing archived and nothing resubmitted, and with the job as it
    was. *)
Theorem float_axis_error_ends_the_loop
    (o : Obs) (rest : list Obs) (irun score rc : Z) (st : state)
    (forces stress : option Tensor) (energy : option float)
    (t : Tensor) (e : exn) :
  runner (dftb st) = true ->
  poll o = Some rc ->
  path_exists (now o) (detailed_out st) = true ->
  read_detailed_out (now o) (detailed_out st) = (forces, stress, energy) ->
  (forces = Some t /\ is_good (target_forces (self st)) forces = false) \/
  (reported (target_forces (self st)) forces = true /\
   stress = Some t /\ is_good (target_forces (self st)) stress = false) ->
  max_abs_axis t (PrimFloat.mul 10%float (target_forces (self st))) = Err e ->
  exists st' ev,
    loop (o :: rest) irun score st = Failed e st' /\
    self st' = self st /\
    driver (dftb st') =
      <["ConvergentForcesOnly" := PBool (both_present forces stress)]>
        (driver (dftb st)) /\
    trace st' =
      trace st ++
      ELog Info "Execution completed. Return code %d" [PInt rc] :: ev /\
    (ev = [] \/ exists m, ev = [ELog Info "Forces: " [PFloat m]]) /\
    archived ev = [] /\ submitted ev = 0%nat.
Proof.
  intros Hr Hp He Hd Hcase Herr. simpl.
  unfold loop_body, detailed_out in *.
  unfold bind at 1. unfold get_dftb at 1. rewrite Hr, Hp.
  norm. rewrite He. simpl.
  unfold evaluate. rewrite Hd.
  unfold reported in Hcase.
  unfold set_convergent_forces_only, classify, is_good in *.
  destruct Hcase as [[-> Hbad]|(Hrf & -> & Hbad)].
  - destruct stress as [t'|]; norm; rewrite Hbad; norm; rewrite Herr.
    all: eexists _, []; split; [reflexivity|]; simpl.
    all: split_and!; try done; by left.
  - destruct forces as [f|]; norm.
    + destruct (flt (max_abs f) _) eqn:Hgf; norm.
      * rewrite Hbad. norm. rewrite Herr.
        eexists _, []. split; [reflexivity|]. simpl.
        split_and!; try done. by left.
      * simpl in Hrf. destruct (max_abs_axis f _) as [m|] eqn:Hm; [|done].
        norm. rewrite Hbad. norm. rewrite Herr.
        eexists _, [_]. split; [reflexivity|]. simpl.
        rewrite <- !app_assoc. simpl.
        split_and!; try done. right. by eexists.
    + rewrite Hbad. norm. rewrite Herr.
      eexists _, []. split; [reflexivity|]. simpl.
      split_and!; try done. by left.
Qed.

(** X4: while the process is alive the controller only logs its name and
    sleeps ten seconds: [n] polls add [2 n] events and change neither the
    job, nor the adapter, nor the two counters. *)
Theorem polling_changes_nothing (waits rest : list Obs) :
  forall (irun score : Z) (st : state),
    Forall (fun o => poll o = None) waits ->
    loop (waits ++ rest) irun score st =
    loop rest irun score
      (logged_all
         (concat (replicate (length waits)
            [ELog Debug "ID: %s" [PStr (basename (workdir (self st)))];
             ESleep 10]))
         st).
Proof.
  induction waits as [|o waits IH]; intros irun score st Hall; simpl.
  - by rewrite (logged_all_nil (H:=ext)).
  - apply Forall_cons in Hall as [Ho Hall].
    rewrite (loop_body_running (H:=ext) o irun score st Ho).
    rewrite IH by exact Hall. simpl.
    by rewrite !(logged_all_cons (H:=ext)).
Qed.

(** X9: when [run] ends, however it ends, the adapter holds the job's
    current structure, works in the job's directory and has a subprocess;
    so [get_forces_stress_energy], which looks into the job's directory,
    reads the [detailed.out] the loop evaluates, and answers three absent
    values when there is no such file. *)
Theorem job_and_adapter_agree (r : Relaxator) (obs : list Obs) (w : World) :
  let st := final_state (run r obs) in
  dftb_structure (dftb st) = structure (self st) /\
  dftb_workdir (dftb st) = workdir r /\
  runner (dftb st) = true /\
  get_forces_stress_energy w st =
    Done (if path_isfile w (detailed_out st)
          then read_detailed_out w (detailed_out st)
          else (None, None, None)) st.
Proof.
  simpl. destruct (run_counts r obs) as (k & _ & _ & _ & (Hs & Hw & Hr) & _).
  destruct (run_keeps_job r obs) as (Hwd & _).
  split_and!; [exact Hs | by rewrite Hw | exact Hr |].
  unfold get_forces_stress_energy, detailed_out. norm. rewrite Hw.
  by destruct (path_isfile w _).
Qed.

(** X5: the final static calculation starts from [geo_end.gen] of the
    job's directory if that is a file and from the job's current structure
    otherwise, symmetrized in both cases; it archives the outputs under the
    current index and then submits with an empty driver, the option
    [CalculateForces] set and the Hamiltonian untouched. *)
Theorem final_static_submission (o : Obs) (irun : Z) (st : state) :
  let g := symmetrize (final_geometry (now o) st) in
  exists st' rest,
    final_static o irun st = Done Break st' /\
    structure (self st') = g /\
    dftb_structure (dftb st') = g /\
    (path_isfile (now o) (workdir (self st) +:+ os_sep +:+ "geo_end.gen") = false ->
     g = symmetrize (structure (self st))) /\
    trace st' =
      trace st ++
      [final_static_message; EGetGeometry; ERollOutputs irun;
       ESetInputs g ∅ (hamiltonian (dftb st))
         (<["CalculateForces" := PBool true]> (options (dftb st)));
       ERun] ++ rest.
Proof.
  simpl.
  destruct (final_static_exec o irun st)
    as (st' & tail & Hf & Hself & Hds & _ & _ & Ht & _).
  exists st'. eexists. split; [exact Hf|].
  split; [by rewrite Hself|]. split; [exact Hds|].
  split; [unfold final_geometry; by intros ->|].
  rewrite Ht. reflexivity.
Qed.

(** X6: after the static run a second run is submitted if and only if
    forces, stress or energy are missing from its [detailed.out].  If they
    are all there the adapter is left with an empty driver; otherwise the
    short relaxation is submitted on the same structure with the lattice
    fixed, 0.9 times the target as force bound, unconverged forces
    accepted, at most 10 steps and 50 SCC iterations. *)
Theorem fallback_iff_static_result_incomplete (o : Obs) (irun : Z) (st : state) :
  let res := read_detailed_out (after_static o) (detailed_out st) in
  exists st' ev,
    final_static o irun st = Done Break st' /\
    trace st' = trace st ++ ev /\
    (complete res = true <-> submitted ev = 1%nat) /\
    (complete res = false <-> submitted ev = 2%nat) /\
    (complete res = true ->
     driver (dftb st') = ∅ /\ length (inputs_written ev) = 1%nat) /\
    (complete res = false ->
     exists d h op,
       last (inputs_written ev) =
         Some (symmetrize (final_geometry (now o) st), d, h, op) /\
       driver (dftb st') = d /\
       d !! "LatticeOpt" = Some (PBool false) /\
       d !! "MaxForceComponent" =
         Some (PFloat (PrimFloat.mul 0.9%float (target_forces (self st)))) /\
       d !! "ConvergentForcesOnly" = Some (PBool false) /\
       d !! "MaxSteps" = Some (PInt 10) /\
       h !! "MaxSCCIterations" = Some (PInt 50)).
Proof.
  simpl.
  destruct (final_static_exec o irun st)
    as (st' & tail & Hf & _ & _ & _ & _ & Ht & Hc & Hi).
  exists st'. eexists. split; [exact Hf|]. split; [exact Ht|].
  rewrite !submitted_app, !inputs_written_app.
  destruct (polls_archive_nothing (static_polls o)) as (_ & -> & ->).
  destruct (complete _).
  - destruct Hc as [-> Hd]; [done|].
    split_and!; try done.
    + split; [intros _|done].
      destruct (waiting (self st)); unfold submitted; simpl; lia.
    + split; [done|].
      destruct (waiting (self st)); unfold submitted; simpl; lia.
    + intros _. split; [exact Hd|].
      by destruct (waiting (self st)).
  - destruct Hi as (d & h & op & -> & Hd & Hlook); [done|].
    rewrite !submitted_app, !inputs_written_app.
    destruct (sleeps_archive_nothing (fallback_polls o)) as (_ & -> & ->).
    split_and!; try done.
    + split; [done|].
      destruct (waiting (self st)); unfold submitted; simpl; lia.
    + split; [intros _|done].
      destruct (waiting (self st)); unfold submitted; simpl; lia.
    + intros _. exists d, h, op. split; [|split; [exact Hd | exact Hlook]].
      by destruct (waiting (self st)).
Qed.

(** X7: the decision of lines 82-93 never fails and touches only the
    driver.  If forces or stress are good, all atoms are moved and the
    lattice is relaxed exactly when the forces are good (whatever the
    stress); every other driver option is kept.  If neither is good,
    nothing is changed or logged. *)
Theorem decision_relaxes_lattice_iff_forces_good
    (good_forces good_stress : bool) (st : state) :
  exists st',
    decide_relaxation good_forces good_stress st = Done tt st' /\
    self st' = self st /\
    hamiltonian (dftb st') = hamiltonian (dftb st) /\
    options (dftb st') = options (dftb st) /\
    dftb_structure (dftb st') = dftb_structure (dftb st) /\
    (good_forces || good_stress = true ->
     driver (dftb st') !! "LatticeOpt" = Some (PBool good_forces) /\
     driver (dftb st') !! "MovedAtoms" = Some (PStr "1:-1") /\
     forall k, k <> "LatticeOpt"%string -> k <> "MovedAtoms"%string ->
       driver (dftb st') !! k = driver (dftb st) !! k) /\
    (good_forces || good_stress = false -> st' = st).
Proof.
  unfold decide_relaxation.
  destruct good_forces, good_stress; norm;
    (eexists; split; [reflexivity|]); simpl;
    split_and!; try done; intros _;
    split_and!; try done;
    try (rewrite ?lookup_insert_ne by done; by rewrite lookup_insert_eq);
    intros k Hk1 Hk2; by rewrite !lookup_insert_ne.
Qed.

(** X8: [run] begins by writing the inputs for the job's current
    structure and submitting them; whatever defaults [basic_input] brings,
    the first run has the lattice fixed, 0.9 times the target as force
    bound, converged forces only, at most 50 steps and 50 SCC iterations. *)
Theorem first_run_settings (r : Relaxator) (obs : list Obs) :
  exists d h op rest,
    trace (final_state (run r obs)) =
      ESetInputs (structure r) d h op :: ERun :: rest /\
    d !! "LatticeOpt" = Some (PBool false) /\
    d !! "MaxForceComponent" =
      Some (PFloat (PrimFloat.mul 0.9%float (target_forces r))) /\
    d !! "ConvergentForcesOnly" = Some (PBool true) /\
    d !! "MaxSteps" = Some (PInt 50) /\
    h !! "MaxSCCIterations" = Some (PInt 50).
Proof.
  unfold run.
  match goal with
  | |- context [first_run ?x] =>
      destruct (first_run_exec x)
        as (st1 & d & h & op & -> & _ & _ & Ht & _ & _ & _ & Hlook)
  end.
  simpl in Ht, Hlook.
  destruct (loop_counts obs 0 0 st1) as (ev & k & Hl & _); [lia | lia |].
  exists d, h, op. eexists. split; [|exact Hlook].
  rewrite Hl, Ht. reflexivity.
Qed.

End LoopFacts.

(** With a target of 0.5 and forces of 7, [np.max] is asked for axis 5 of
    a flat array: the first evaluation ends [run] with [ValueError]. *)
Lemma float_axis_error_ends_the_loop_witness :
  run loose_job [sample_obs (Some 0) rough] =
    loop [sample_obs (Some 0) rough] 0 0 loose_state /\
  exists st' ev,
    loop (sample_obs (Some 0) rough :: []) 0 0 loose_state =
      Failed ValueError st' /\
    self st' = self loose_state /\
    driver (dftb st') =
      <["ConvergentForcesOnly" :=
          PBool (both_present (Some [7%float]) (Some [3%float]))]>
        (driver (dftb loose_state)) /\
    trace st' =
      trace loose_state ++
      ELog Info "Execution completed. Return code %d" [PInt 0] :: ev /\
    (ev = [] \/ exists m, ev = [ELog Info "Forces: " [PFloat m]]) /\
    archived ev = [] /\ submitted ev = 0%nat.
Proof.
  split; [reflexivity|].
  apply (float_axis_error_ends_the_loop
           (sample_obs (Some 0) rough) [] 0 0 0 loose_state
           (Some [7%float]) (Some [3%float]) None [7%float] ValueError).
  - vm_compute; reflexivity.
  - reflexivity.
  - reflexivity.
  - reflexivity.
  - left. split; [reflexivity | vm_compute; reflexivity].
  - vm_compute; reflexivity.
Defined.

(** Two polls of a live process before the process is found gone. *)
Lemma polling_changes_nothing_witness :
  Forall (fun o => poll o = None)
    [sample_obs None converged; sample_obs None converged] /\
  loop ([sample_obs None converged; sample_obs None converged] ++
        [sample_obs (Some 0) converged]) 0 0 sample_state =
  loop [sample_obs (Some 0) converged] 0 0
    (logged_all
       (concat (replicate
          (length [sample_obs None converged; sample_obs None converged])
          [ELog Debug "ID: %s" [PStr (basename (workdir (self sample_state)))];
           ESleep 10]))
       sample_state).
Proof.
  split; [repeat constructor|].
  apply (polling_changes_nothing
           [sample_obs None converged; sample_obs None converged]
           [sample_obs (Some 0) converged] 0 0 sample_state).
  repeat constructor.
Defined.

(** * Facts about the k-point mesh *)

Section KPointsFacts.

Import Kpt.

Context {np : Numpy}.

Lemma is_in_explicit (s : string) :
  is_in s explicit_modes = true <-> s = "cartesian"%string \/ s = "reciprocal"%string.
Proof.
  unfold is_in, explicit_modes. rewrite bool_decide_eq_true.
  rewrite !elem_of_cons, elem_of_nil. tauto.
Qed.

Lemma is_in_grid (s : string) :
  is_in s grid_modes = true <-> s = "gamma"%string \/ s = "monkhorst-pack"%string.
Proof.
  unfold is_in, grid_modes. rewrite bool_decide_eq_true.
  rewrite !elem_of_cons, elem_of_nil. tauto.
Qed.

Lemma is_in_all (s : string) :
  is_in s all_modes = true <->
  is_in s explicit_modes = true \/ is_in s grid_modes = true \/ s = "path"%string.
Proof.
  rewrite is_in_explicit, is_in_grid.
  unfold is_in, all_modes. rewrite bool_decide_eq_true.
  rewrite !elem_of_cons, elem_of_nil. tauto.
Qed.

Lemma explicit_not_grid (s : string) :
  is_in s explicit_modes = true -> is_in s grid_modes = false.
Proof.
  rewrite is_in_explicit. intros [-> | ->]; reflexivity.
Qed.

Lemma lower_of_mode (s : string) :
  is_in s all_modes = true -> lower s = s.
Proof.
  rewrite is_in_all, is_in_explicit, is_in_grid.
  intros [[-> | ->] | [[-> | ->] | ->]]; reflexivity.
Qed.

Lemma rows_of_three_shape (msg : string) (x : Obj) (a : ndarray) :
  rows_of_three msg x = Return a ->
  exists n rest, shape a = n :: 3%nat :: rest.
Proof.
  unfold rows_of_three. case_bool_decide as Hs.
  - destruct (shape_reshape3 _ Hs) as (b & -> & Hb). intros [= <-].
    exists 1%nat, []. exact Hb.
  - destruct (shape (np_array x)) as [|n [|c rest]] eqn:Hsh; simpl; try done.
    case_bool_decide; [|done]. intros [= <-]. subst c. by exists n, rest.
Qed.

Lemma set_kpoints_list_done (self k : KPoints) (kl w : option Obj) :
  set_kpoints_list self kl w = (k, None) ->
  is_in (kmode self) explicit_modes = true /\
  exists a wt n rest rest',
    k = with_weights (Some wt) (with_kpoints_list (Some a) self) /\
    shape a = n :: 3%nat :: rest /\ shape wt = n :: rest'.
Proof.
  unfold set_kpoints_list.
  destruct (is_in (kmode self) explicit_modes); simpl; [|done].
  intros Hk. split; [done|].
  assert (exists a n rest,
    match kl with
    | Some x =>
        rows_of_three
          "Wrong value for kpoints_list, should be an array with shape (nkpt,3)" x
    | None => Return np_origin
    end = Return a /\ shape a = n :: 3%nat :: rest) as (a & n & rest & Ha & Hsh).
  { destruct kl as [x|].
    - destruct (rows_of_three _ x) as [a|e] eqn:Hr; [|done].
      destruct (rows_of_three_shape _ _ _ Hr) as (n & rest & Hsh).
      by exists a, n, rest.
    - exists np_origin, 1%nat, []. split; [done | apply shape_origin]. }
  rewrite Ha in Hk. unfold len in Hk. rewrite Hsh in Hk.
  destruct w as [x|].
  - destruct (shape (np_array x)) as [|m rest'] eqn:Hw; [done|].
    case_bool_decide; [|done]. simplify_eq.
    by exists a, (np_array x), n, rest, rest'.
  - simplify_eq. exists a, (np_ones n), n, rest, []. by rewrite shape_ones.
Qed.

Lemma set_grid_done (self k : KPoints) (g s : option Obj) :
  set_grid self g s = (k, None) <->
  is_in (kmode self) grid_modes = true /\
  three_or_none g /\ three_or_none s /\
  k = with_shifts (Some (from_option np_array (np_zeros 3) s))
        (with_grid (Some (from_option np_array (np_ones 3) g)) self).
Proof.
  unfold set_grid, three_or_none.
  destruct (is_in (kmode self) grid_modes); simpl;
    [|split; [done | by intros [? _]]].
  destruct g as [x|], s as [y|]; simpl; repeat case_bool_decide;
    (split; [intros [= <-]; done | intros (_ & ? & ? & ->); done]).
Qed.

Lemma init_inv (km : string) (kl w s g kv n : option Obj) (k : KPoints) :
  init km kl w s g kv n = Return k ->
  is_in (lower km) all_modes = true /\
  ((is_in (lower km) explicit_modes = true /\
    exists a wt m rest rest',
      k = Build_KPoints (lower km) (Some a) (Some wt) None None None None /\
      shape a = m :: 3%nat :: rest /\ shape wt = m :: rest') \/
   (is_in (lower km) grid_modes = true /\
    three_or_none g /\ three_or_none s /\
    k = Build_KPoints (lower km) None None
          (Some (from_option np_array (np_ones 3) g))
          (Some (from_option np_array (np_zeros 3) s)) None None) \/
   (lower km = "path"%string /\
    exists v i m rest,
      k = Build_KPoints (lower km) None None None None (Some v) (Some i) /\
      shape v = m :: 3%nat :: rest /\
      match n with Some x => py_int x = Return i | None => i = 1 end)).
Proof.
  unfold init.
  destruct (is_in (lower km) all_modes) eqn:Hall; simpl; [|done].
  intros Hk. split; [done|].
  destruct (is_in (lower km) explicit_modes) eqn:He.
  - left. split; [done|].
    destruct (set_kpoints_list _ kl w) as [k' [e|]] eqn:Hs; [done|].
    simplify_eq.
    destruct (set_kpoints_list_done _ _ _ _ Hs)
      as (_ & a & wt & m & rest & rest' & -> & Ha & Hw).
    by exists a, wt, m, rest, rest'.
  - destruct (is_in (lower km) grid_modes) eqn:Hg.
    + right; left. split; [done|].
      destruct (set_grid _ g s) as [k' [e|]] eqn:Hs; [done|].
      simplify_eq.
      apply set_grid_done in Hs as (_ & H1 & H2 & ->). done.
    + right; right.
      apply is_in_all in Hall as [Hx | [Hx | Hp]]; [congruence | congruence |].
      split; [done|]. rewrite Hp in Hk |- *. simpl in Hk.
      assert (exists v m rest,
        match kv with
        | Some x =>
            rows_of_three
              "Wrong value for kvertices, should be an array with shape (nkpt,3)" x
        | None => Return np_origin
        end = Return v /\ shape v = m :: 3%nat :: rest)
        as (v & m & rest & Hv & Hsh).
      { destruct kv as [x|].
        - destruct (rows_of_three _ x) as [a|e] eqn:Hr; [|done].
          destruct (rows_of_three_shape _ _ _ Hr) as (m & rest & Hsh).
          by exists a, m, rest.
        - exists np_origin, 1%nat, []. split; [done | apply shape_origin]. }
      rewrite Hv in Hk. simpl in Hk.
      destruct n as [x|].
      * destruct (py_int x) as [i|e] eqn:Hi; [|done]. simpl in Hk.
        simplify_eq. by exists v, i, m, rest.
      * simplify_eq. by exists v, 1, m, rest.
Qed.

Lemma kmode_in_all (v : option Obj) :
  kmode_in v all_modes = false <->
  kmode_in v explicit_modes = false /\ kmode_in v grid_modes = false /\
  kmode_in v ["path"%string] = false.
Proof.
  unfold kmode_in. destruct v as [x|]; [|done].
  destruct (py_str x) as [t|]; [|done].
  unfold is_in, all_modes, explicit_modes, grid_modes.
  rewrite !bool_decide_eq_false, !elem_of_cons, !elem_of_nil. tauto.
Qed.

Lemma kmode_in_string (v : option Obj) (l : list string) :
  kmode_in v l = true ->
  exists x, v = Some x /\ py_str x = Some (kmode_string v) /\
            is_in (kmode_string v) l = true.
Proof.
  unfold kmode_in, kmode_string. destruct v as [x|]; [|done].
  destruct (py_str x) as [t|] eqn:Hx; [|done]. intros Hl. by exists x.
Qed.

Lemma init_kmode (km : string) (kl w s g kv n : option Obj) (k : KPoints) :
  init km kl w s g kv n = Return k -> kmode k = lower km.
Proof.
  intros Hk. apply init_inv in Hk as (_ & Hk).
  destruct Hk as [(_ & a & wt & m & r & r' & -> & _)
                 |[(_ & _ & _ & ->)|(_ & v & i & m & r & -> & _)]]; done.
Qed.

(** X10: the constructor compares [kmode] in lower case with the five
    modes: any other string ends in the [ValueError] of line 75 whatever
    the other arguments, and an object that is built carries the
    lower-case name of one of the five modes. *)
Theorem kmode_is_one_of_five_in_lower_case
    (km : string) (kl w s g kv n : option Obj) :
  (is_in (lower km) all_modes = false ->
   init km kl w s g kv n =
     Raise (ValueError
       "kmode must be 'cartesian', 'reciprocal', 'gamma', 'monkhorst-pack' or 'path'")) /\
  (forall k, init km kl w s g kv n = Return k ->
     kmode k = lower km /\ kmode k ∈ all_modes).
Proof.
  split.
  - intros Hno. unfold init. by rewrite Hno.
  - intros k Hk. pose proof (init_kmode _ _ _ _ _ _ _ _ Hk) as Hm.
    split; [done|]. apply init_inv in Hk as (Hall & _).
    rewrite Hm. unfold is_in in Hall. by apply bool_decide_eq_true in Hall.
Qed.

(** X11: the two descriptions of a mesh are mutually exclusive in every
    object the constructor returns: the explicit list and its weights are
    set exactly in the modes cartesian and reciprocal, grid and shifts
    exactly in the modes gamma and monkhorst-pack, vertices and
    intermediates exactly in the mode path; everything else is [None]. *)
Theorem constructor_sets_only_the_fields_of_the_mode
    (km : string) (kl w s g kv n : option Obj) (k : KPoints) :
  init km kl w s g kv n = Return k ->
  (is_Some (kpoints_list k) <-> is_in (kmode k) explicit_modes = true) /\
  (is_Some (weights k) <-> is_in (kmode k) explicit_modes = true) /\
  (is_Some (grid k) <-> is_in (kmode k) grid_modes = true) /\
  (is_Some (shifts k) <-> is_in (kmode k) grid_modes = true) /\
  (is_Some (kvertices k) <-> kmode k = "path"%string) /\
  (is_Some (intermediates k) <-> kmode k = "path"%string).
Proof.
  intros Hk. apply init_inv in Hk as (_ & Hk).
  destruct Hk as [(He & a & wt & m & r & r' & -> & _)
                 |[(Hg & _ & _ & ->)|(Hp & v & i & m & r & -> & _)]]; simpl.
  - pose proof (explicit_not_grid _ He) as Hg.
    assert (lower km <> "path"%string) by (intros Hp; by rewrite Hp in He).
    rewrite He, Hg, <- !not_eq_None_Some.
    split_and!; split; try done; intros; by eexists.
  - assert (is_in (lower km) explicit_modes = false) as He.
    { destruct (is_in (lower km) explicit_modes) eqn:He; [|done].
      apply explicit_not_grid in He. congruence. }
    assert (lower km <> "path"%string) by (intros Hp; by rewrite Hp in Hg).
    rewrite He, Hg, <- !not_eq_None_Some.
    split_and!; split; try done; intros; by eexists.
  - rewrite Hp, <- !not_eq_None_Some.
    split_and!; split; try done; intros; by eexists.
Qed.

(** X12: in an object the constructor returns, an explicit list has three
    columns and as many rows as there are weights; grid and shifts are
    vectors of three; the vertices of a path have three columns. *)
Theorem constructor_checks_the_shapes
    (km : string) (kl w s g kv n : option Obj) (k : KPoints) :
  init km kl w s g kv n = Return k ->
  (forall a, kpoints_list k = Some a ->
     shape a !! 1%nat = Some 3%nat /\
     exists wt m, weights k = Some wt /\ len a = Return m /\ len wt = Return m) /\
  (forall a, grid k = Some a ->
     shape a = [3%nat] /\ exists b, shifts k = Some b /\ shape b = [3%nat]) /\
  (forall v, kvertices k = Some v -> shape v !! 1%nat = Some 3%nat).
Proof.
  intros Hk. apply init_inv in Hk as (_ & Hk).
  destruct Hk as [(_ & a & wt & m & r & r' & -> & Ha & Hw)
                 |[(_ & Hg & Hs & ->)|(_ & v & i & m & r & -> & Hv & _)]];
    simpl; split_and!; try done.
  - intros ? [= <-]. rewrite Ha. split; [done|].
    exists wt, m. unfold len. by rewrite Ha, Hw.
  - intros ? [= <-].
    assert (forall (x : option Obj) d, shape d = [3%nat] -> three_or_none x ->
              shape (from_option np_array d x) = [3%nat]) as Hthree.
    { intros [x|] d Hd Hx; simpl; done. }
    split; [apply Hthree; [apply shape_ones | done]|].
    eexists. split; [done|]. apply Hthree; [apply shape_zeros | done].
  - intros ? [= <-]. by rewrite Hv.
Qed.

(** X13: a list of k-points or of vertices that converts to an array with
    fewer than two dimensions, other than a vector of three, is not
    rejected with the [ValueError] of lines 103 and 138: reading
    [shape[1]] raises [IndexError] first. *)
Theorem flat_list_raises_index_error
    (km : string) (x : Obj) (kl w s g kv n : option Obj) :
  shape (np_array x) <> [3%nat] ->
  (length (shape (np_array x)) < 2)%nat ->
  (is_in (lower km) explicit_modes = true ->
   init km (Some x) w s g kv n = Raise IndexError) /\
  (lower km = "path"%string ->
   init km kl w s g (Some x) n = Raise IndexError).
Proof.
  intros Hne Hlen.
  assert (forall msg, rows_of_three msg x = Raise IndexError) as Hrows.
  { intros msg. unfold rows_of_three. rewrite bool_decide_eq_false_2 by done.
    destruct (shape (np_array x)) as [|? [|? ?]]; simpl in *; try done; lia. }
  split.
  - intros He. unfold init.
    assert (is_in (lower km) all_modes = true) as ->
      by (apply is_in_all; by left).
    simpl. rewrite He. unfold set_kpoints_list. simpl. rewrite He. simpl.
    by rewrite Hrows.
  - intros Hp. unfold init. rewrite Hp. simpl. by rewrite Hrows.
Qed.

(** X14: [set_grid] returns if and only if the object is in a grid mode
    and each argument is [None] or a vector of three; a [None] grid becomes
    three ones and [None] shifts three zeros, and nothing else changes.
    When it raises, the object is as before, except that a grid accepted
    before the shifts were rejected stays. *)
Theorem set_grid_returns_iff_vectors_of_three
    (self : KPoints) (g s : option Obj) :
  (snd (set_grid self g s) = None <->
   is_in (kmode self) grid_modes = true /\ three_or_none g /\ three_or_none s) /\
  (snd (set_grid self g s) = None ->
   fst (set_grid self g s) =
     with_shifts (Some (from_option np_array (np_zeros 3) s))
       (with_grid (Some (from_option np_array (np_ones 3) g)) self)) /\
  (snd (set_grid self g s) <> None ->
   fst (set_grid self g s) = self \/
   is_in (kmode self) grid_modes = true /\ three_or_none g /\
   ~ three_or_none s /\
   fst (set_grid self g s) =
     with_grid (Some (from_option np_array (np_ones 3) g)) self).
Proof.
  destruct (set_grid self g s) as [k oe] eqn:Hs. simpl.
  destruct oe as [e|].
  - split_and!; [split; [done|] | done |].
    + intros (Hm & Hg & Hsh). exfalso.
      assert (set_grid self g s = (with_shifts (Some (from_option np_array (np_zeros 3) s))
        (with_grid (Some (from_option np_array (np_ones 3) g)) self), None)) as Hok
        by (by apply set_grid_done).
      congruence.
    + intros _. revert Hs. unfold set_grid, three_or_none.
      destruct (is_in (kmode self) grid_modes); simpl; [|intros [= <- _]; by left].
      destruct g as [x|], s as [y|]; simpl; repeat case_bool_decide;
        intros [= <- ?]; try (by left); by right.
  - apply set_grid_done in Hs as (Hm & Hg & Hsh & ->).
    split_and!; done.
Qed.

(** X15: [set_kpoints_list] checks the weights after it has stored the
    list: when the weights do not have one entry per row, the method
    raises with the new list in place and the old weights kept. *)
Theorem rejected_weights_leave_the_new_list
    (self : KPoints) (x y : Obj) (a : ndarray) :
  is_in (kmode self) explicit_modes = true ->
  rows_of_three
    "Wrong value for kpoints_list, should be an array with shape (nkpt,3)" x
    = Return a ->
  len (np_array y) <> len a ->
  exists e,
    set_kpoints_list self (Some x) (Some y) =
      (with_kpoints_list (Some a) self, Some e) /\
    (e = TypeError \/
     e = ValueError "Wrong value for weights, should be an array with shape (nkpt,)") /\
    weights (with_kpoints_list (Some a) self) = weights self.
Proof.
  intros He Ha Hne. unfold set_kpoints_list. rewrite He, Ha. simpl.
  destruct (rows_of_three_shape _ _ _ Ha) as (m & r & Hsh).
  unfold len in *. rewrite Hsh in *.
  destruct (shape (np_array y)) as [|c ?].
  - eexists. split_and!; [done | by left | done].
  - rewrite bool_decide_eq_false_2 by congruence.
    eexists. split_and!; [done | by right | done].
Qed.

(** X16: on every object the constructor returns, [nkpt] does not return
    [None].  With an explicit list it returns the number of rows, which is
    also the number of weights; on a path the number of vertices times the
    intermediates; with a grid it is [np.prod] of the grid: the product if
    numpy returns one, and numpy's exception otherwise. *)
Theorem nkpt_of_a_constructed_object
    (km : string) (kl w s g kv n : option Obj) (k : KPoints) :
  init km kl w s g kv n = Return k ->
  nkpt k <> Return NoCount /\
  (forall wt, weights k = Some wt ->
     exists m, len wt = Return m /\ nkpt k = Return (Length (Z.of_nat m))) /\
  (forall a, grid k = Some a ->
     nkpt k = and_then (np_prod (Some a)) (fun p => Return (Product p))) /\
  (forall v i, kvertices k = Some v -> intermediates k = Some i ->
     exists m, len v = Return m /\ nkpt k = Return (Length (Z.of_nat m * i))).
Proof.
  intros Hk. apply init_inv in Hk as (_ & Hk).
  destruct Hk as [(He & a & wt & m & r & r' & -> & Ha & Hw)
                 |[(Hg & _ & _ & ->)|(Hp & v & i & m & r & -> & Hv & _)]];
    unfold nkpt; simpl.
  - rewrite He. unfold len. rewrite Ha. simpl.
    split_and!; try done.
    intros ? [= <-]. exists m. by rewrite Hw.
  - assert (is_in (lower km) explicit_modes = false) as ->.
    { destruct (is_in (lower km) explicit_modes) eqn:He; [|done].
      apply explicit_not_grid in He. congruence. }
    rewrite Hg. split_and!; try done.
    + by destruct (np_prod _).
    + by intros ? [= <-].
  - rewrite Hp. simpl. unfold len. rewrite Hv. simpl.
    split_and!; try done.
    intros ? ? [= <-] [= <-]. exists m. by rewrite Hv.
Qed.

(** X17: [from_dict] compares the stored [kmode] as it is, without
    lowering the case: it returns [None] instead of an object exactly when
    the dictionary has a [kmode] that is not literally one of the five
    names (a name the constructor would accept in another case included). *)
Theorem from_dict_returns_none_iff_kmode_is_not_literal
    (d : gmap string (option Obj)) :
  from_dict d = Return None <->
  exists v, d !! "kmode"%string = Some v /\ kmode_in v all_modes = false.
Proof.
  unfold from_dict, item. split.
  - destruct (d !! "kmode"%string) as [v|]; [|done]. simpl.
    intros Hf. exists v. split; [done|]. apply kmode_in_all.
    destruct (kmode_in v explicit_modes).
    { destruct (d !! "kpoints_list"%string); [|done].
      destruct (d !! "weights"%string); [|done]. simpl in Hf.
      by destruct (init _ _ _ _ _ _ _). }
    destruct (kmode_in v grid_modes).
    { destruct (d !! "grid"%string); [|done].
      destruct (d !! "shifts"%string); [|done]. simpl in Hf.
      by destruct (init _ _ _ _ _ _ _). }
    destruct (kmode_in v ["path"%string]); [|done].
    destruct (d !! "kvertices"%string); [|done].
    destruct (d !! "intermediates"%string); [|done]. simpl in Hf.
    by destruct (init _ _ _ _ _ _ _).
  - intros (v & -> & Hv). simpl.
    apply kmode_in_all in Hv as (-> & -> & ->). done.
Qed.

(** X18: an object that [from_dict] returns carries the [kmode] string of
    the dictionary unchanged. *)
Theorem from_dict_keeps_the_kmode
    (d : gmap string (option Obj)) (k : KPoints) :
  from_dict d = Return (Some k) ->
  exists x, d !! "kmode"%string = Some (Some x) /\ py_str x = Some (kmode k).
Proof.
  unfold from_dict, item.
  destruct (d !! "kmode"%string) as [v|]; [|done]. simpl.
  assert (forall l, (forall t, is_in t l = true -> is_in t all_modes = true) ->
            kmode_in v l = true ->
            forall kl w s g kv n, init (kmode_string v) kl w s g kv n = Return k ->
            exists x, Some v = Some (Some x) /\ py_str x = Some (kmode k)) as Hmode.
  { intros l Hl Hin kl w s g kv n Hk.
    destruct (kmode_in_string _ _ Hin) as (x & -> & Hx & Ht).
    exists x. split; [done|]. rewrite Hx. f_equal.
    rewrite (init_kmode _ _ _ _ _ _ _ _ Hk). symmetry.
    by apply lower_of_mode, Hl. }
  destruct (kmode_in v explicit_modes) eqn:He.
  { destruct (d !! "kpoints_list"%string) as [kl|]; [|done].
    destruct (d !! "weights"%string) as [w|]; [|done]. simpl.
    destruct (init _ _ _ _ _ _ _) as [k'|] eqn:Hk; [|done]. intros [= ->].
    eapply Hmode; [|exact He|exact Hk].
    intros t Ht. apply is_in_all. by left. }
  destruct (kmode_in v grid_modes) eqn:Hg.
  { destruct (d !! "grid"%string) as [g|]; [|done].
    destruct (d !! "shifts"%string) as [s|]; [|done]. simpl.
    destruct (init _ _ _ _ _ _ _) as [k'|] eqn:Hk; [|done]. intros [= ->].
    eapply Hmode; [|exact Hg|exact Hk].
    intros t Ht. apply is_in_all. right; by left. }
  destruct (kmode_in v ["path"%string]) eqn:Hp; [|done].
  destruct (d !! "kvertices"%string) as [kv|]; [|done].
  destruct (d !! "intermediates"%string) as [n|]; [|done]. simpl.
  destruct (init _ _ _ _ _ _ _) as [k'|] eqn:Hk; [|done]. intros [= ->].
  eapply Hmode; [|exact Hp|exact Hk].
  intros t Ht. apply is_in_all. right; right.
  unfold is_in in Ht. apply bool_decide_eq_true in Ht.
  rewrite elem_of_cons, elem_of_nil in Ht. by destruct Ht.
Qed.

(** X19: [set_optimized_grid] can only return when it is given a density
    and no number of k-points, and then it replaces the grid and nothing
    else, in whatever mode the object is.  Given a number of k-points it
    always raises and leaves the object alone: [ValueError] if a density
    is given too, and otherwise, once the lattice has given its reciprocal
    cell and volume, the [NameError] of the unbound name [nkpt]. *)
Theorem optimized_grid_needs_a_density
    (self : KPoints) (lattice : Lattice) (density number : option Obj) :
  (forall k, set_optimized_grid self lattice density number = (k, None) ->
     number = None /\ is_Some density /\
     exists a, k = with_grid (Some a) self) /\
  (forall x, number = Some x ->
     exists e, set_optimized_grid self lattice density number = (self, Some e) /\
       (is_Some density -> exists msg, e = ValueError msg) /\
       (density = None ->
        forall c v, reciprocal_cell lattice = Return c ->
          inverse_volume lattice = Return v -> e = NameError "nkpt")).
Proof.
  unfold set_optimized_grid. split.
  - intros k Hk. destruct number as [x|], density as [y|]; try done.
    + destruct (reciprocal_cell lattice); [|done].
      by destruct (inverse_volume lattice).
    + destruct (reciprocal_cell lattice); [|done].
      destruct (optimized _ _); [|done]. simplify_eq.
      split_and!; [done | by eexists | by eexists].
  - intros x ->. destruct density as [y|].
    + eexists. split_and!; [done | by eexists | done].
    + destruct (reciprocal_cell lattice) as [c|e1] eqn:Hc.
      * destruct (inverse_volume lattice) as [v|e2] eqn:Hv.
        -- eexists. split_and!; [done | by intros [? ?] | done].
        -- eexists. split_and!; [done | by intros [? ?] | done].
      * eexists. split_and!; [done | by intros [? ?] | done].
Qed.

(** X20: the modes are not interchangeable: an object built in another
    mode has no explicit list, and neither [set_kpoints_list] nor [add_kpt]
    gives it one; both stop at their assertion and leave it as it is. *)
Theorem explicit_list_only_in_explicit_modes
    (km : string) (kl w s g kv n : option Obj) (k : KPoints)
    (kl' w' : option Obj) (p wt : Obj) :
  init km kl w s g kv n = Return k ->
  is_in (lower km) explicit_modes = false ->
  kpoints_list k = None /\ weights k = None /\
  set_kpoints_list k kl' w' = (k, Some AssertionError) /\
  add_kpt k p wt = (k, Some AssertionError).
Proof.
  intros Hk Hne. pose proof (init_kmode _ _ _ _ _ _ _ _ Hk) as Hm.
  unfold set_kpoints_list, add_kpt. rewrite Hm, Hne. simpl.
  apply init_inv in Hk as (_ & Hk).
  destruct Hk as [(He & _)
                 |[(_ & _ & _ & ->)|(_ & v & i & m & r & -> & _)]];
    [congruence | done | done].
Qed.

End KPointsFacts.

(** [KPoints(kmode='Gamma', grid=[7, 7, 7])] has a grid and shifts and
    nothing else. *)
Lemma constructor_sets_only_the_fields_of_the_mode_witness :
  exists k,
    Kpt.init (H:=sample_numpy) "Gamma" None None None (Some seven) None None
      = Kpt.Return k /\
    (is_Some (Kpt.kpoints_list k) <->
     Kpt.is_in (Kpt.kmode k) Kpt.explicit_modes = true) /\
    (is_Some (Kpt.weights k) <->
     Kpt.is_in (Kpt.kmode k) Kpt.explicit_modes = true) /\
    (is_Some (Kpt.grid k) <-> Kpt.is_in (Kpt.kmode k) Kpt.grid_modes = true) /\
    (is_Some (Kpt.shifts k) <-> Kpt.is_in (Kpt.kmode k) Kpt.grid_modes = true) /\
    (is_Some (Kpt.kvertices k) <-> Kpt.kmode k = "path"%string) /\
    (is_Some (Kpt.intermediates k) <-> Kpt.kmode k = "path"%string).
Proof.
  eexists. split; [vm_compute; reflexivity|].
  apply (constructor_sets_only_the_fields_of_the_mode (np:=sample_numpy)
           "Gamma" None None None (Some seven) None None).
  vm_compute; reflexivity.
Defined.

(** Two k-points with two weights. *)
Lemma constructor_checks_the_shapes_witness :
  exists k,
    Kpt.init (H:=sample_numpy) "reciprocal" (Some two_points)
      (Some (Vec [1; 1])) None None None None = Kpt.Return k /\
    (forall a, Kpt.kpoints_list k = Some a ->
       Kpt.shape a !! 1%nat = Some 3%nat /\
       exists wt m, Kpt.weights k = Some wt /\
         Kpt.len a = Kpt.Return m /\ Kpt.len wt = Kpt.Return m) /\
    (forall a, Kpt.grid k = Some a ->
       Kpt.shape a = [3%nat] /\
       exists b, Kpt.shifts k = Some b /\ Kpt.shape b = [3%nat]) /\
    (forall v, Kpt.kvertices k = Some v -> Kpt.shape v !! 1%nat = Some 3%nat).
Proof.
  eexists. split; [vm_compute; reflexivity|].
  apply (constructor_checks_the_shapes (np:=sample_numpy)
           "reciprocal" (Some two_points) (Some (Vec [1; 1])) None None None None).
  vm_compute; reflexivity.
Defined.

(** [KPoints(kmode='Cartesian', kpoints_list=[1, 2])] *)
Lemma flat_list_raises_index_error_witness :
  Kpt.init (H:=sample_numpy) "Cartesian" (Some flat_pair) None None None None None
    = Kpt.Raise Kpt.IndexError.
Proof.
  refine (proj1 (flat_list_raises_index_error (np:=sample_numpy)
                   "Cartesian" flat_pair None None None None None None _ _) _).
  - vm_compute. discriminate.
  - vm_compute. lia.
  - vm_compute; reflexivity.
Defined.

(** Two k-points with three weights: the origin is replaced, its single
    weight stays. *)
Lemma rejected_weights_leave_the_new_list_witness :
  exists e,
    Kpt.set_kpoints_list sample_points (Some two_points) (Some seven) =
      (Kpt.with_kpoints_list (H:=sample_numpy)
         (Some (@Kpt.np_array sample_numpy two_points)) sample_points, Some e) /\
    (e = Kpt.TypeError \/
     e = Kpt.ValueError
           "Wrong value for weights, should be an array with shape (nkpt,)") /\
    Kpt.weights
      (Kpt.with_kpoints_list (H:=sample_numpy)
         (Some (@Kpt.np_array sample_numpy two_points)) sample_points)
    = Kpt.weights sample_points.
Proof.
  apply (rejected_weights_leave_the_new_list (np:=sample_numpy)
           sample_points two_points seven).
  - vm_compute; reflexivity.
  - vm_compute; reflexivity.
  - vm_compute. discriminate.
Defined.

(** A grid of [7, 7, 7] has 343 points. *)
Lemma nkpt_of_a_constructed_object_witness :
  exists k,
    Kpt.init (H:=sample_numpy) "gamma" None None None (Some seven) None None
      = Kpt.Return k /\
    Kpt.nkpt k = Kpt.Return (Kpt.Product (343 : @Kpt.Scalar sample_numpy)) /\
    Kpt.nkpt k <> Kpt.Return Kpt.NoCount /\
    (forall wt, Kpt.weights k = Some wt ->
       exists m, Kpt.len wt = Kpt.Return m /\
                 Kpt.nkpt k = Kpt.Return (Kpt.Length (Z.of_nat m))) /\
    (forall a, Kpt.grid k = Some a ->
       Kpt.nkpt k =
         Kpt.and_then (Kpt.np_prod (Some a))
           (fun p => Kpt.Return (Kpt.Product p))) /\
    (forall v i, Kpt.kvertices k = Some v -> Kpt.intermediates k = Some i ->
       exists m, Kpt.len v = Kpt.Return m /\
                 Kpt.nkpt k = Kpt.Return (Kpt.Length (Z.of_nat m * i))).
Proof.
  eexists. split; [vm_compute; reflexivity|].
  split; [vm_compute; reflexivity|].
  apply (nkpt_of_a_constructed_object (np:=sample_numpy)
           "gamma" None None None (Some seven) None None).
  vm_compute; reflexivity.
Defined.

(** The dictionary of a gamma-centred grid. *)
Lemma from_dict_keeps_the_kmode_witness :
  exists k,
    Kpt.from_dict (H:=sample_numpy) sample_dict = Kpt.Return (Some k) /\
    exists x : value,
      sample_dict !! "kmode"%string = Some (Some x) /\
      @Kpt.py_str sample_numpy x = Some (Kpt.kmode k).
Proof.
  eexists. split; [vm_compute; reflexivity|].
  apply (from_dict_keeps_the_kmode (np:=sample_numpy) sample_dict).
  vm_compute; reflexivity.
Defined.

(** A path through the origin takes no explicit list. *)
Lemma explicit_list_only_in_explicit_modes_witness :
  exists k,
    Kpt.init (H:=sample_numpy) "path" None None None None None None
      = Kpt.Return k /\
    Kpt.kpoints_list k = None /\ Kpt.weights k = None /\
    Kpt.set_kpoints_list k (Some two_points) None
      = (k, Some Kpt.AssertionError) /\
    Kpt.add_kpt k seven (Num 1) = (k, Some Kpt.AssertionError).
Proof.
  eexists. split; [vm_compute; reflexivity|].
  apply (explicit_list_only_in_explicit_modes (np:=sample_numpy)
           "path" None None None None None None).
  - vm_compute; reflexivity.
  - vm_compute; reflexivity.
Defined.
